(** * ShoreSquad: the weather advisory pipeline of [js/app.js]

    A shallow embedding of class [SingaporeWeatherService]: the three feeds
    of data.gov.sg as typed payloads, the selection steps of
    [getCurrentWeather], the mappers [getWeatherIcon] and
    [getCleanupRecommendation], the scorer [calculateSuitabilityScore] with
    its rating [getCleanupSuitability], and the driver
    [updateWeatherDisplay] with its renderers, as a state-and-exception
    monad over the page and an event log.

    Conventions of the model.
    - A JavaScript string is a [string] of bytes (the UTF-8 bytes of the
      source file).  [toLowerCase] folds the ASCII letters only, so the
      statements below speak of texts whose letters are ASCII, as the feeds'
      are.
    - A JavaScript number read from a feed is a rational [Q]; NaN and the
      infinities cannot be written in JSON and are left out.
    - The payload of a feed has the shape the API documents; what can still
      be missing is an element of a list (an empty list), the optional
      [wind] of a day, or the whole body (it does not parse). *)

From Stdlib Require Import ZArith QArith Qround List Bool Ascii String Lia.
From Stdlib Require Import DecimalString.
From Stdlib Require Import Lqa.
Import ListNotations.

Local Open Scope string_scope.
Local Open Scope Z_scope.

(** ** JavaScript built-ins used by the service *)

Module Js.

(** [String.prototype.toLowerCase], on ASCII letters. *)
Definition lower_ascii (c : ascii) : ascii :=
  let n := N_of_ascii c in
  if ((65 <=? n) && (n <=? 90))%N then ascii_of_N (n + 32) else c.

Fixpoint toLowerCase (s : string) : string :=
  match s with
  | EmptyString => EmptyString
  | String c s' => String (lower_ascii c) (toLowerCase s')
  end.

(** [String.prototype.includes]: [sub] occurs in [s] at some offset. *)
Fixpoint includes (s sub : string) : bool :=
  String.prefix sub s ||
  match s with
  | EmptyString => false
  | String _ s' => includes s' sub
  end.

(** The white space of the regular expression [\s], among ASCII. *)
Definition is_space (c : ascii) : bool :=
  let n := N_of_ascii c in
  ((n =? 32) || ((9 <=? n) && (n <=? 13)))%N.

(** [s.replace(/\s+/g, '-')]: every maximal run of white space becomes one
    dash.  [in_run] tells that the previous character was white space. *)
Fixpoint replace_spaces (in_run : bool) (s : string) : string :=
  match s with
  | EmptyString => EmptyString
  | String c s' =>
      if is_space c
      then (if in_run then replace_spaces true s'
            else String "-" (replace_spaces true s'))
      else String c (replace_spaces false s')
  end.

(** [<=] on two strings: the order of the code units. *)
Definition str_le (a b : string) : bool := String.leb a b.

(** [Math.round]: the nearest integer, a half going up. *)
Definition Math_round (x : Q) : Z := Qfloor (x + (1 # 2)).

Definition Math_max (a b : Z) : Z := Z.max a b.
Definition Math_min (a b : Z) : Z := Z.min a b.

(** Comparisons of numbers. *)
Definition num_le (a b : Q) : bool := Qle_bool a b.
Definition num_lt (a b : Q) : bool := negb (Qle_bool b a).

(** The decimal text of an integer, as a template literal prints it. *)
Definition Z_toString (z : Z) : string :=
  NilZero.string_of_int (Z.to_int z).

Definition digit (z : Z) : ascii := ascii_of_N (48 + Z.to_N z).

Fixpoint frac_digits (fuel : nat) (r d : Z) : string :=
  match fuel with
  | O => EmptyString
  | S fuel' =>
      if r =? 0 then EmptyString
      else String (digit ((10 * r) / d))
                  (frac_digits fuel' ((10 * r) mod d) d)
  end.

(** The text of a number inside a template literal: exact on integers and
    on decimals of up to 17 places whose size lies between 1e-6 and 1e21,
    which covers what the feeds carry; beyond that range a template
    literal prints the exponent form, which is not modelled. *)
Definition Number_toString (q : Q) : string :=
  let d := Z.pos (Qden q) in
  let a := Z.abs (Qnum q) in
  let sign := if Qnum q <? 0 then "-" else "" in
  let fraction :=
    if a mod d =? 0 then "" else "." ++ frac_digits 17 (a mod d) d in
  sign ++ Z_toString (a / d) ++ fraction.

End Js.

Import Js.

(** ** The pure mappers and the scorer *)

(** [getWeatherIcon(forecast)] *)
Definition getWeatherIcon (forecast : string) : string :=
  let weatherLower := toLowerCase forecast in
  if includes weatherLower "thundery" || includes weatherLower "thunder"
  then "fa-bolt"
  else if includes weatherLower "heavy rain" || includes weatherLower "heavy shower"
  then "fa-cloud-rain"
  else if includes weatherLower "rain" || includes weatherLower "shower"
  then "fa-cloud-drizzle"
  else if includes weatherLower "cloudy"
  then "fa-cloud"
  else if includes weatherLower "partly cloudy" || includes weatherLower "fair"
  then "fa-cloud-sun"
  else if includes weatherLower "hazy" || includes weatherLower "mist"
  then "fa-smog"
  else "fa-sun".

(** [getCleanupRecommendation(forecast)] *)
Definition getCleanupRecommendation (forecast : string) : string :=
  let weatherLower := toLowerCase forecast in
  if includes weatherLower "thundery" || includes weatherLower "heavy rain"
  then "Not ideal for cleanup"
  else if includes weatherLower "rain" || includes weatherLower "shower"
  then "Consider postponing"
  else if includes weatherLower "fair" || includes weatherLower "sunny"
  then "Perfect for cleanup!"
  else if includes weatherLower "partly cloudy"
  then "Great conditions!"
  else if includes weatherLower "cloudy"
  then "Good for cleanup!"
  else if includes weatherLower "hazy"
  then "Okay, but stay hydrated"
  else "Check conditions!".

(** The three adjustments of [calculateSuitabilityScore], in the order of the
    source; each is the amount its [if]/[else if] chain adds to [score]. *)
Definition weather_adjustment (weather : string) : Z :=
  if includes weather "fair" || includes weather "sunny" then 3
  else if includes weather "partly cloudy" then 2
  else if includes weather "cloudy" then 1
  else if includes weather "rain" || includes weather "shower" then -3
  else if includes weather "thundery" then -5
  else 0.

Definition temperature_adjustment (temp : Q) : Z :=
  if num_le 24 temp && num_le temp 32 then 1
  else if num_lt 32 temp then -1
  else 0.

Definition humidity_adjustment (humidity : Q) : Z :=
  if num_lt humidity 70 then 1
  else if num_lt 85 humidity then -1
  else 0.

(** The value of [score] just before the [return]. *)
Definition unclamped_score (weather : string) (temp humidity : Q) : Z :=
  let score := 5 in
  let score := score + weather_adjustment weather in
  let score := score + temperature_adjustment temp in
  let score := score + humidity_adjustment humidity in
  score.

(** [calculateSuitabilityScore(weather, temp, humidity)] *)
Definition calculateSuitabilityScore (weather : string) (temp humidity : Q) : Z :=
  Math_max 0 (Math_min 10 (unclamped_score weather temp humidity)).

(** The threshold chain at the end of [getCleanupSuitability]. *)
Definition rating_of_score (score : Z) : string :=
  if score >=? 8 then "Excellent"
  else if score >=? 6 then "Good"
  else if score >=? 4 then "Fair"
  else "Poor".

(** [getCleanupSuitability(forecast, tempHigh, humidity)] *)
Definition getCleanupSuitability (forecast : string) (tempHigh humidity : Q) : string :=
  let weatherLower := toLowerCase forecast in
  let score := calculateSuitabilityScore weatherLower tempHigh humidity in
  rating_of_score score.

(** ** The three feeds *)

(** [GET /environment/2-hour-weather-forecast] *)
Module TwoHour.
Record area_forecast := { area : string; forecast : string }.
Record item := { timestamp : string; forecasts : list area_forecast }.
Record data := { items : list item }.
End TwoHour.

(** [GET /environment/air-temperature]; the service reads no timestamp here. *)
Module AirTemp.
Record reading := { station_id : string; value : Q }.
Record item := { readings : list reading }.
Record data := { items : list item }.
End AirTemp.

(** [GET /environment/4-day-weather-forecast] *)
Module FourDay.
Record range := { high : Q; low : Q }.
Record wind_info := { speed : range }.
Record day := {
  date : string;
  forecast : string;
  temperature : range;
  relative_humidity : range;
  wind : option wind_info
}.
Record item := { forecasts : list day }.
Record data := { items : list item }.
End FourDay.

(** What [await fetch(url)] gives: the promise rejects (the transport
    failed), or it resolves to a response with its [ok] flag and the value
    of [await response.json()], [None] when that promise rejects. *)
Inductive fetched (A : Type) : Type :=
| Rejected
| Response (ok : bool) (json : option A).
Arguments Rejected {A}.
Arguments Response {A} ok json.

(** Everything one run reads from outside. *)
Record world := {
  two_hour_feed : fetched TwoHour.data;
  air_temperature_feed : fetched AirTemp.data;
  four_day_feed : fetched FourDay.data;
  now : string            (* [new Date().toISOString()] *)
}.

(** ** Results handed to the renderers *)

(** The object built by [processWeatherData]; the fallback object has no
    [condition]. *)
Module Weather.
Record data := {
  temp : string;
  icon : string;
  desc : string;
  condition : option string
}.
End Weather.

(** [new Date(d).toLocaleDateString('en-SG', {weekday: 'short', month:
    'short', day: 'numeric'})] is left symbolic: the text depends on the
    locale data of the engine. *)
Inductive locale_date : Type :=
| en_SG_short (iso : string).

(** One element of the array built by [getWeatherForecast]. *)
Module Outlook.
Record t := {
  date : locale_date;
  weather : string;
  tempHigh : string;
  tempLow : string;
  humidity : string;
  wind : string;
  icon : string;
  cleanupSuitability : string
}.
End Outlook.

(** ** The page and the effects of a run *)

(** The [.weather-forecast] element: absent, or present with the cards that
    [renderForecast] wrote into it ([[]] before any forecast was rendered). *)
Inductive container : Type :=
| NoContainer
| Container (cards : list Outlook.t).

(** The part of the document the service touches.  An element that the
    page does not have is [None] (or [false]). *)
Record page := {
  weather_temp : option string;      (* textContent of [.weather-temp] *)
  weather_icon : option string;      (* className of [.weather-icon] *)
  weather_desc : option string;      (* textContent of [.weather-desc] *)
  weather_widget : bool;             (* [.weather-widget] exists *)
  weather_forecast : container
}.

Inductive exn : Type :=
| Error (message : string)     (* [new Error(message)] *)
| TypeError                    (* a property read on [undefined] *)
| FetchRejected                (* the rejection of [fetch] *)
| JsonRejected.                (* the rejection of [response.json()] *)

Inductive event : Type :=
| Fetch (url : string)
| ConsoleError (label : string) (error : exn)
| ConsoleWarn (label : string) (error : exn)
| CallRenderWeather (data : Weather.data)
| CallRenderForecast (forecastData : list Outlook.t).

Record state := { dom : page; log : list event }.

Inductive outcome (A : Type) : Type :=
| Returned (a : A)
| Thrown (error : exn).
Arguments Returned {A} a.
Arguments Thrown {A} error.

(** A computation that may throw and that changes the page and the log.
    The [await]s of one run happen in program order, so an [async] method
    is a computation of this monad. *)
Definition M (A : Type) : Type := state -> outcome A * state.

Definition ret {A} (a : A) : M A := fun st => (Returned a, st).

Definition bind {A B} (m : M A) (k : A -> M B) : M B :=
  fun st =>
    match m st with
    | (Returned a, st') => k a st'
    | (Thrown e, st') => (Thrown e, st')
    end.

Definition throw {A} (e : exn) : M A := fun st => (Thrown e, st).

(** [try { body } catch (error) { handler }] *)
Definition try_catch {A} (body : M A) (handler : exn -> M A) : M A :=
  fun st =>
    match body st with
    | (Returned a, st') => (Returned a, st')
    | (Thrown e, st') => handler e st'
    end.

Definition emit (e : event) : M unit :=
  fun st => (Returned tt, {| dom := dom st; log := log st ++ [e] |}).

Definition get_dom : M page := fun st => (Returned (dom st), st).

Definition set_dom (p : page) : M unit :=
  fun st => (Returned tt, {| dom := p; log := log st |}).

Declare Scope js_scope.
Delimit Scope js_scope with js.
Notation "x <- m ;; k" := (bind m (fun x => k))
  (at level 61, m at next level, right associativity) : js_scope.
Notation "m ;; k" := (bind m (fun _ => k))
  (at level 61, right associativity) : js_scope.
Local Open Scope js_scope.

(** Reading a property of [x]: a [TypeError] when [x] is [undefined]. *)
Definition prop {A B} (x : option A) (field : A -> B) : M B :=
  match x with
  | Some a => ret (field a)
  | None => throw TypeError
  end.

(** [a || b] where [a] is an object or [undefined]. *)
Definition or_else {A} (a b : option A) : option A :=
  match a with
  | Some _ => a
  | None => b
  end.

Record response (A : Type) := { ok : bool; body : option A }.
Arguments ok {A} r.
Arguments body {A} r.

(** [await fetch(url)] *)
Definition fetch {A} (url : string) (feed : fetched A) : M (response A) :=
  emit (Fetch url) ;;
  match feed with
  | Rejected => throw FetchRejected
  | Response o b => ret {| ok := o; body := b |}
  end.

(** [await response.json()] *)
Definition json {A} (r : response A) : M A :=
  match body r with
  | Some a => ret a
  | None => throw JsonRejected
  end.

(** ** class SingaporeWeatherService *)

Definition apiBase : string := "https://api.data.gov.sg/v1".

(** The default of [let temperature] and the [temp] of the fallback. *)
Definition default_temperature : string := "28Â°C".

(** [processWeatherData(forecast, temperature)] *)
Definition processWeatherData (forecast temperature : string) : Weather.data :=
  let icon := getWeatherIcon forecast in
  let desc := getCleanupRecommendation forecast in
  {| Weather.temp := temperature;
     Weather.icon := icon;
     Weather.desc := desc;
     Weather.condition := Some (replace_spaces false (toLowerCase forecast)) |}.

(** [data.items.find(item => item.timestamp <= currentTime) || data.items[0]] *)
Definition latestForecast (items : list TwoHour.item) (currentTime : string)
  : option TwoHour.item :=
  or_else
    (find (fun item => str_le (TwoHour.timestamp item) currentTime) items)
    (nth_error items 0).

(** [latestForecast.forecasts.find(forecast => ...) || latestForecast.forecasts[0]] *)
Definition pasirRisForecast (forecasts : list TwoHour.area_forecast)
  : option TwoHour.area_forecast :=
  or_else
    (find (fun forecast =>
             includes (toLowerCase (TwoHour.area forecast)) "pasir ris" ||
             includes (toLowerCase (TwoHour.area forecast)) "east")
          forecasts)
    (nth_error forecasts 0).

(** [latestTemp.readings.find(reading => ...)] *)
Definition eastTemp (readings : list AirTemp.reading) : option AirTemp.reading :=
  find (fun reading =>
          String.eqb (AirTemp.station_id reading) "S07" ||
          String.eqb (AirTemp.station_id reading) "S43")
       readings.

(** The text that ends in [temperature] once the readings are at hand. *)
Definition temperature_of (readings : list AirTemp.reading) : string :=
  match eastTemp readings with
  | Some reading => Z_toString (Math_round (AirTemp.value reading)) ++ "Â°C"
  | None => default_temperature
  end.

(** [async getCurrentWeather()] *)
Definition getCurrentWeather (w : world) : M Weather.data :=
  try_catch
    (response <- fetch (apiBase ++ "/environment/2-hour-weather-forecast")
                       (two_hour_feed w) ;;
     if negb (ok response) then throw (Error "Weather API unavailable") else
     data <- json response ;;
     let currentTime := now w in
     let latest := latestForecast (TwoHour.items data) currentTime in
     forecasts <- prop latest TwoHour.forecasts ;;
     let pasirRis := pasirRisForecast forecasts in
     tempResponse <- fetch (apiBase ++ "/environment/air-temperature")
                           (air_temperature_feed w) ;;
     temperature <-
       (if ok tempResponse then
          tempData <- json tempResponse ;;
          let latestTemp := nth_error (AirTemp.items tempData) 0 in
          readings <- prop latestTemp AirTemp.readings ;;
          ret (temperature_of readings)
        else ret default_temperature) ;;
     forecast <- prop pasirRis TwoHour.forecast ;;
     ret (processWeatherData forecast temperature))
    (fun error =>
       emit (ConsoleError "Error fetching current weather:" error) ;;
       throw error).

(** The object that the arrow function of [forecast.slice(0, 5).map] builds
    from one [day]. *)
Definition daily_outlook (day : FourDay.day) : Outlook.t :=
  {| Outlook.date := en_SG_short (FourDay.date day);
     Outlook.weather := FourDay.forecast day;
     Outlook.tempHigh :=
       Number_toString (FourDay.high (FourDay.temperature day)) ++ "Â°C";
     Outlook.tempLow :=
       Number_toString (FourDay.low (FourDay.temperature day)) ++ "Â°C";
     Outlook.humidity :=
       Number_toString (FourDay.high (FourDay.relative_humidity day)) ++ "%";
     Outlook.wind :=
       match FourDay.wind day with
       | Some wd => Number_toString (FourDay.high (FourDay.speed wd)) ++ " km/h"
       | None => "Light"
       end;
     Outlook.icon := getWeatherIcon (FourDay.forecast day);
     Outlook.cleanupSuitability :=
       getCleanupSuitability (FourDay.forecast day)
                             (FourDay.high (FourDay.temperature day))
                             (FourDay.high (FourDay.relative_humidity day)) |}.

(** [async getWeatherForecast()] *)
Definition getWeatherForecast (w : world) : M (list Outlook.t) :=
  try_catch
    (response <- fetch (apiBase ++ "/environment/4-day-weather-forecast")
                       (four_day_feed w) ;;
     if negb (ok response) then throw (Error "Forecast API unavailable") else
     data <- json response ;;
     forecast <- prop (nth_error (FourDay.items data) 0) FourDay.forecasts ;;
     ret (map daily_outlook (firstn 5 forecast)))
    (fun error =>
       emit (ConsoleError "Error fetching weather forecast:" error) ;;
       ret []).

(** The assignments of [renderWeather], each under its [if (element)]. *)
Definition set_if_present (element : option string) (text : string) : option string :=
  match element with
  | Some _ => Some text
  | None => None
  end.

Definition show_weather (data : Weather.data) (p : page) : page :=
  {| weather_temp := set_if_present (weather_temp p) (Weather.temp data);
     weather_icon :=
       set_if_present (weather_icon p)
                      ("fas " ++ Weather.icon data ++ " weather-icon");
     weather_desc := set_if_present (weather_desc p) (Weather.desc data);
     weather_widget := weather_widget p;
     weather_forecast := weather_forecast p |}.

(** [renderWeather(data)] *)
Definition renderWeather (data : Weather.data) : M unit :=
  emit (CallRenderWeather data) ;;
  p <- get_dom ;;
  set_dom (show_weather data p).

(** [createForecastContainer()]: the new element is appended to the widget,
    when there is one. *)
Definition createForecastContainer (p : page) : page :=
  if weather_widget p
  then {| weather_temp := weather_temp p;
          weather_icon := weather_icon p;
          weather_desc := weather_desc p;
          weather_widget := weather_widget p;
          weather_forecast := Container [] |}
  else p.

Definition is_empty {A} (l : list A) : bool :=
  match l with
  | [] => true
  | _ :: _ => false
  end.

(** The two [if]s of [renderForecast]. *)
Definition show_forecast (forecastData : list Outlook.t) (p : page) : page :=
  let p :=
    match weather_forecast p with
    | NoContainer => if negb (is_empty forecastData) then createForecastContainer p else p
    | Container _ => p
    end in
  match weather_forecast p with
  | Container _ =>
      if negb (is_empty forecastData)
      then {| weather_temp := weather_temp p;
              weather_icon := weather_icon p;
              weather_desc := weather_desc p;
              weather_widget := weather_widget p;
              weather_forecast := Container forecastData |}
      else p
  | NoContainer => p
  end.

(** [renderForecast(forecastData)] *)
Definition renderForecast (forecastData : list Outlook.t) : M unit :=
  emit (CallRenderForecast forecastData) ;;
  p <- get_dom ;;
  set_dom (show_forecast forecastData p).

(** The object literal of [renderFallbackWeather]. *)
Definition fallback_weather : Weather.data :=
  {| Weather.temp := "28Â°C";
     Weather.icon := "fa-sun";
     Weather.desc := "Check local weather!";
     Weather.condition := None |}.

(** [renderFallbackWeather()] *)
Definition renderFallbackWeather : M unit :=
  renderWeather fallback_weather.

(** [async updateWeatherDisplay()]: one run of the pipeline. *)
Definition updateWeatherDisplay (w : world) : M unit :=
  try_catch
    (weatherData <- getCurrentWeather w ;;
     forecastData <- getWeatherForecast w ;;
     renderWeather weatherData ;;
     renderForecast forecastData)
    (fun error =>
       emit (ConsoleWarn "Weather service unavailable:" error) ;;
       renderFallbackWeather).

(** ** Vocabulary of the statements *)

(** A fetch that fails at the transport or comes back with a non-success
    status. *)
Definition fetch_fails {A} (feed : fetched A) : bool :=
  match feed with
  | Rejected => true
  | Response o _ => negb o
  end.

(** The condition feed gives [getCurrentWeather] nothing to return: the
    fetch fails, the body does not parse, [items] is empty, or the chosen
    item has no area entry. *)
Definition two_hour_unusable (feed : fetched TwoHour.data) (currentTime : string) : bool :=
  match feed with
  | Rejected => true
  | Response false _ => true
  | Response true None => true
  | Response true (Some data) =>
      match latestForecast (TwoHour.items data) currentTime with
      | None => true
      | Some item => is_empty (TwoHour.forecasts item)
      end
  end.

(** The temperature feed makes [getCurrentWeather] throw: the transport
    fails, or the status is a success and the body does not parse or has
    an empty [items].  A non-success status is not in this list. *)
Definition air_temperature_unusable (feed : fetched AirTemp.data) : bool :=
  match feed with
  | Rejected => true
  | Response false _ => false
  | Response true None => true
  | Response true (Some data) => is_empty (AirTemp.items data)
  end.

(** The 4-day feed gives [getWeatherForecast] no day list. *)
Definition four_day_unusable (feed : fetched FourDay.data) : bool :=
  match feed with
  | Rejected => true
  | Response false _ => true
  | Response true None => true
  | Response true (Some data) => is_empty (FourDay.items data)
  end.

(** The calls of the two renderers among the events of a run. *)
Definition is_render_call (e : event) : bool :=
  match e with
  | CallRenderWeather _ | CallRenderForecast _ => true
  | Fetch _ | ConsoleError _ _ | ConsoleWarn _ _ => false
  end.

Definition render_calls (events : list event) : list event :=
  filter is_render_call events.



(** ** Sample inputs *)

Module Sample.

Definition jurong_east : TwoHour.area_forecast :=
  {| TwoHour.area := "Jurong East"; TwoHour.forecast := "Cloudy" |}.
Definition pasir_ris : TwoHour.area_forecast :=
  {| TwoHour.area := "Pasir Ris"; TwoHour.forecast := "Fair (Day)" |}.
Definition changi : TwoHour.area_forecast :=
  {| TwoHour.area := "Changi"; TwoHour.forecast := "Light Rain" |}.

Definition pasir_ris_earlier : TwoHour.area_forecast :=
  {| TwoHour.area := "Pasir Ris"; TwoHour.forecast := "Thundery Showers" |}.

Definition batch_0800 : TwoHour.item :=
  {| TwoHour.timestamp := "2024-05-01T08:00:00+08:00";
     TwoHour.forecasts := [changi; pasir_ris_earlier] |}.
Definition batch_1000 : TwoHour.item :=
  {| TwoHour.timestamp := "2024-05-01T10:00:00+08:00";
     TwoHour.forecasts := [changi; pasir_ris] |}.

(** 20:30 in Singapore, after both batches. *)
Definition evening : string := "2024-05-01T12:30:00.000Z".

Definition s07 : AirTemp.reading :=
  {| AirTemp.station_id := "S07"; AirTemp.value := 306 # 10 |}.
Definition s43 : AirTemp.reading :=
  {| AirTemp.station_id := "S43"; AirTemp.value := 292 # 10 |}.
Definition s100 : AirTemp.reading :=
  {| AirTemp.station_id := "S100"; AirTemp.value := 275 # 10 |}.

Definition friday : FourDay.day :=
  {| FourDay.date := "2024-05-03";
     FourDay.forecast := "Afternoon thundery showers";
     FourDay.temperature := {| FourDay.high := 34; FourDay.low := 25 |};
     FourDay.relative_humidity := {| FourDay.high := 95; FourDay.low := 60 |};
     FourDay.wind := None |}.
Definition saturday : FourDay.day :=
  {| FourDay.date := "2024-05-04";
     FourDay.forecast := "Afternoon thundery showers";
     FourDay.temperature := {| FourDay.high := 34; FourDay.low := 22 |};
     FourDay.relative_humidity := {| FourDay.high := 95; FourDay.low := 45 |};
     FourDay.wind :=
       Some {| FourDay.speed := {| FourDay.high := 25; FourDay.low := 10 |} |} |}.

Definition two_hour : TwoHour.data := {| TwoHour.items := [batch_1000] |}.
Definition air : AirTemp.data :=
  {| AirTemp.items := [ {| AirTemp.readings := [s100; s07; s43] |} ] |}.
Definition four_day : FourDay.data :=
  {| FourDay.items := [ {| FourDay.forecasts := [friday; saturday] |} ] |}.

(** All feeds answer; the condition feed lists "Jurong East" first. *)
Definition east_first : world :=
  {| two_hour_feed :=
       Response true
         (Some {| TwoHour.items :=
                    [ {| TwoHour.timestamp := "2024-05-01T10:00:00+08:00";
                         TwoHour.forecasts := [jurong_east; pasir_ris] |} ] |});
     air_temperature_feed := Response true (Some air);
     four_day_feed := Response true (Some four_day);
     now := evening |}.

(** All feeds answer; the condition feed has two past batches, oldest
    first. *)
Definition two_batches : world :=
  {| two_hour_feed :=
       Response true (Some {| TwoHour.items := [batch_0800; batch_1000] |});
     air_temperature_feed := Response true (Some air);
     four_day_feed := Response true (Some four_day);
     now := evening |}.

(** Every feed answers with a non-success status. *)
Definition all_down : world :=
  {| two_hour_feed := Response false None;
     air_temperature_feed := Response false None;
     four_day_feed := Response false None;
     now := evening |}.

(** The condition feed answers; the temperature feed answers with a
    non-success status and the 4-day feed is unreachable. *)
Definition only_conditions : world :=
  {| two_hour_feed := Response true (Some two_hour);
     air_temperature_feed := Response false None;
     four_day_feed := Rejected;
     now := evening |}.



(** A page that has the widget and no forecast container yet. *)
Definition fresh_page : page :=
  {| weather_temp := Some "--";
     weather_icon := Some "fas fa-sun weather-icon";
     weather_desc := Some "Loading...";
     weather_widget := true;
     weather_forecast := NoContainer |}.

Definition start : state := {| dom := fresh_page; log := [] |}.

End Sample.




(** The addresses fetched, in order, among the events of a run. *)
Definition fetched_urls (events : list event) : list string :=
  flat_map (fun e => match e with
                     | Fetch url => [url]
                     | _ => []
                     end) events.

(** The errors written to the console, in order. *)
Definition console_errors (events : list event) : list exn :=
  flat_map (fun e => match e with
                     | ConsoleError _ error => [error]
                     | _ => []
                     end) events.

Definition two_hour_url : string :=
  "https://api.data.gov.sg/v1/environment/2-hour-weather-forecast".
Definition air_temperature_url : string :=
  "https://api.data.gov.sg/v1/environment/air-temperature".
Definition four_day_url : string :=
  "https://api.data.gov.sg/v1/environment/4-day-weather-forecast".

(** What the events of [getCurrentWeather] are, by its outcome. *)
Definition current_step_report (w : world) (o : outcome Weather.data)
           (events : list event) : Prop :=
  match o with
  | Returned _ =>
      fetched_urls events = [two_hour_url; air_temperature_url] /\
      console_errors events = [] /\
      two_hour_unusable (two_hour_feed w) (now w) = false /\
      air_temperature_unusable (air_temperature_feed w) = false
  | Thrown e =>
      console_errors events = [e] /\
      (fetched_urls events = [two_hour_url] \/
       fetched_urls events = [two_hour_url; air_temperature_url]) /\
      (fetch_fails (two_hour_feed w) = true ->
       fetched_urls events = [two_hour_url]) /\
      (two_hour_unusable (two_hour_feed w) (now w) = true \/
       air_temperature_unusable (air_temperature_feed w) = true)
  end.

(** A computation that neither reads nor changes the page, and whose
    outcome and events do not depend on the state it starts from. *)
Definition oblivious {A} (m : M A) (o : outcome A) (events : list event) : Prop :=
  forall st, m st = (o, {| dom := dom st; log := log st ++ events |}).

Definition is_oblivious {A} (m : M A) : Prop :=
  exists o events, oblivious m o events.

(** What one run does to the page, as a function of the old page. *)
Definition fallback_page (p : page) : page := show_weather fallback_weather p.

Definition live_page (data : Weather.data) (days : list Outlook.t) (p : page) : page :=
  show_forecast days (show_weather data p).

(** ** class InteractiveFeatures: [addWeatherAnimation] *)

Module WeatherAnimation.

Definition weatherIcons : list string :=
  ["fa-sun"; "fa-cloud-sun"; "fa-cloud"; "fa-wind"].

Definition weatherDescs : list string :=
  ["Perfect for cleanup!"; "Great conditions!"; "Still good to go!";
   "Breezy but doable!"].

(** [addWeatherAnimation()]: the interval is installed only when the page
    has the [.weather-icon] element; the result is the initial value of the
    closure variable [currentIndex]. *)
Definition addWeatherAnimation (p : page) : option nat :=
  match weather_icon p with
  | Some _ => Some 0%nat
  | None => None
  end.

(** One run of the callback given to [setInterval]: the new value of
    [currentIndex] and the new page.  An index out of the arrays would read
    [undefined]; the default of [nth] stands for it. *)
Definition tick (currentIndex : nat) (p : page) : nat * page :=
  let currentIndex := ((currentIndex + 1) mod List.length weatherIcons)%nat in
  (currentIndex,
   {| weather_temp := weather_temp p;
      weather_icon :=
        set_if_present (weather_icon p)
                       ("fas " ++ nth currentIndex weatherIcons "undefined" ++
                        " weather-icon");
      weather_desc :=
        set_if_present (weather_desc p) (nth currentIndex weatherDescs "undefined");
      weather_widget := weather_widget p;
      weather_forecast := weather_forecast p |}).

(** [n] runs of the callback in a row. *)
Fixpoint ticks (n : nat) (currentIndex : nat) (p : page) : nat * page :=
  match n with
  | O => (currentIndex, p)
  | S n' => let (i, p') := tick currentIndex p in ticks n' i p'
  end.

End WeatherAnimation.

(** ** [debounce(func, wait)] *)

Module Debounce.

Section WithArguments.

(** The arguments of one call of the debounced function. *)
Variable A : Type.

(** The timers of the window that this closure has set and that have
    neither fired nor been cleared, each with the arguments its [later]
    holds, and the next timer id. *)
Record timers := { next_id : nat; pending : list (nat * A) }.

(** The closure variable [timeout], the timers, and the calls of [func]
    made so far, with their arguments. *)
Record closure := { timeout : option nat; clock : timers; calls : list A }.

Definition drop_timer (id : nat) (l : list (nat * A)) : list (nat * A) :=
  filter (fun t => negb (Nat.eqb (fst t) id)) l.

(** [clearTimeout(id)]; an [undefined] id clears nothing. *)
Definition clearTimeout (id : option nat) (t : timers) : timers :=
  match id with
  | Some i => {| next_id := next_id t; pending := drop_timer i (pending t) |}
  | None => t
  end.

(** [setTimeout(later, wait)], where [later] holds [args]. *)
Definition setTimeout (args : A) (t : timers) : nat * timers :=
  (next_id t,
   {| next_id := S (next_id t);
      pending := pending t ++ [(next_id t, args)] |}).

Definition initial : closure :=
  {| timeout := None; clock := {| next_id := 0; pending := [] |}; calls := [] |}.

(** [executedFunction(...args)] *)
Definition executedFunction (args : A) (s : closure) : closure :=
  let c := clearTimeout (timeout s) (clock s) in
  let (id, c) := setTimeout args c in
  {| timeout := Some id; clock := c; calls := calls s |}.

(** The timer [id] fires, if it is pending: the window drops it and runs
    its [later], which clears [timeout] and calls [func(...args)]. *)
Definition fire (id : nat) (s : closure) : closure :=
  match find (fun t => Nat.eqb (fst t) id) (pending (clock s)) with
  | Some (_, args) =>
      let c := {| next_id := next_id (clock s);
                  pending := drop_timer id (pending (clock s)) |} in
      let c := clearTimeout (timeout s) c in
      {| timeout := timeout s; clock := c; calls := calls s ++ [args] |}
  | None => s
  end.

Inductive action : Type :=
| Call (args : A)
| Fire (id : nat).

Definition act (s : closure) (a : action) : closure :=
  match a with
  | Call args => executedFunction args s
  | Fire id => fire id s
  end.

Definition run (actions : list action) (s : closure) : closure :=
  fold_left act actions s.

(** At most one timer is pending, and [timeout] names it. *)
Definition at_most_one_timer (s : closure) : Prop :=
  pending (clock s) = [] \/
  exists id args, pending (clock s) = [(id, args)] /\ timeout s = Some id.

(** The number of calls of the debounced function among the actions. *)
Definition count_calls (actions : list action) : nat :=
  List.length (filter (fun a => match a with
                                | Call _ => true
                                | Fire _ => false
                                end) actions).

End WithArguments.

Arguments next_id {A} t.
Arguments pending {A} t.
Arguments timeout {A} c.
Arguments clock {A} c.
Arguments calls {A} c.
Arguments initial {A}.
Arguments executedFunction {A} args s.
Arguments fire {A} id s.
Arguments Call {A} args.
Arguments Fire {A} id.
Arguments act {A} s a.
Arguments run {A} actions s.
Arguments at_most_one_timer {A} s.
Arguments count_calls {A} actions.

End Debounce.

(** ** class Navigation and the Escape key of [addKeyboardNavigation]

    The page is taken to have the elements the constructor of [Navigation]
    looks up ([.nav-toggle], [.nav-menu], [.header]), as it must for the
    application to start; the toggle button is not inside the menu. *)

Module Nav.

(** A [DOMTokenList]. *)
Definition contains (token : string) (classList : list string) : bool :=
  existsb (String.eqb token) classList.

Definition remove (token : string) (classList : list string) : list string :=
  filter (fun t => negb (String.eqb t token)) classList.

Definition toggle (token : string) (classList : list string) : list string :=
  if contains token classList then remove token classList
  else classList ++ [token].

(** What the menu methods read and write: the class lists of [.nav-menu]
    and [.nav-toggle], the [aria-expanded] attribute of the toggle and
    [document.body.style.overflow]. *)
Record menu := {
  navMenu : list string;
  navToggle : list string;
  aria_expanded : option string;
  body_overflow : string
}.

(** [toggleMobileMenu()] *)
Definition toggleMobileMenu (m : menu) : menu :=
  let menuClasses := toggle "active" (navMenu m) in
  let toggleClasses := toggle "active" (navToggle m) in
  {| navMenu := menuClasses;
     navToggle := toggleClasses;
     aria_expanded :=
       Some (if contains "active" menuClasses then "true" else "false");
     body_overflow := if contains "active" menuClasses then "hidden" else "" |}.

(** [closeMobileMenu()] *)
Definition closeMobileMenu (m : menu) : menu :=
  {| navMenu := remove "active" (navMenu m);
     navToggle := remove "active" (navToggle m);
     aria_expanded := Some "false";
     body_overflow := "" |}.

(** The page with the [Navigation] objects built so far: each one has
    bound its own click listeners to the same elements. *)
Record bound := { elements : menu; navigations : nat }.

Inductive user_event : Type :=
| ClickToggle          (* a click inside [.nav-toggle] *)
| ClickHashLink        (* a click on a [.nav-link] whose href starts with # *)
| ClickInsideMenu      (* another click inside [.nav-menu] *)
| ClickOutside         (* a click outside both *)
| PressEscape
| PressOtherKey.

Fixpoint repeat_times (n : nat) (f : menu -> menu) (m : menu) : menu :=
  match n with
  | O => m
  | S n' => repeat_times n' f (f m)
  end.

(** The listeners that run on an event: those bound by every [Navigation]
    in [bindEvents], and the keydown listener of [addKeyboardNavigation],
    which builds a new [Navigation], binding its listeners, before it
    closes the menu. *)
Definition handle (b : bound) (e : user_event) : bound :=
  match e with
  | ClickToggle =>
      {| elements := repeat_times (navigations b) toggleMobileMenu (elements b);
         navigations := navigations b |}
  | ClickHashLink =>
      {| elements := repeat_times (navigations b) closeMobileMenu (elements b);
         navigations := navigations b |}
  | ClickInsideMenu => b
  | ClickOutside =>
      {| elements := repeat_times (navigations b) closeMobileMenu (elements b);
         navigations := navigations b |}
  | PressEscape =>
      if contains "active" (navMenu (elements b))
      then {| elements := closeMobileMenu (elements b);
              navigations := S (navigations b) |}
      else b
  | PressOtherKey => b
  end.

Definition handle_all (events : list user_event) (b : bound) : bound :=
  fold_left handle events b.

Definition is_open (m : menu) : bool := contains "active" (navMenu m).



End Nav.

(** ** class FormHandler: the validation of the address

    The value typed is a JavaScript string, that is a sequence of UTF-16
    code units, each a number; [trim] and the class [\s] of the regular
    expression (which has no [u] flag) both work on code units. *)

Module Form.

(** A JavaScript string as its UTF-16 code units. *)
Definition js_string : Type := list N.

(** The code units of a text of ASCII characters. *)
Definition of_ascii (s : string) : js_string :=
  map N_of_ascii (list_ascii_of_string s).

(** WhiteSpace and LineTerminator of ECMAScript, the characters that
    [trim] strips and that [\s] matches: U+0009 to U+000D, U+0020, U+00A0,
    U+1680, U+2000 to U+200A, U+2028, U+2029, U+202F, U+205F, U+3000 and
    U+FEFF. *)
Definition is_white_space (u : N) : bool :=
  ((9 <=? u) && (u <=? 13) ||
   (u =? 32) || (u =? 160) || (u =? 5760) ||
   (8192 <=? u) && (u <=? 8202) ||
   (u =? 8232) || (u =? 8233) || (u =? 8239) || (u =? 8287) ||
   (u =? 12288) || (u =? 65279))%N.

(** [String.prototype.trim] *)
Fixpoint trimStart (s : js_string) : js_string :=
  match s with
  | [] => []
  | u :: s' => if is_white_space u then trimStart s' else s
  end.

Definition trimEnd (s : js_string) : js_string := rev (trimStart (rev s)).

Definition trim (s : js_string) : js_string := trimEnd (trimStart s).

(** The code units of "@" and of ".". *)
Definition at_sign : N := 64.
Definition full_stop : N := 46.

(** The class [[^\s@]]. *)
Definition not_space_nor_at (u : N) : bool :=
  negb (is_white_space u) && negb (N.eqb u at_sign).

(** A matcher for [[^\s@]+] followed by what [k] accepts: at least one
    unit of the class, then any split point is tried. *)
Fixpoint plus_class (s : js_string) (k : js_string -> bool) : bool :=
  match s with
  | [] => false
  | u :: s' => not_space_nor_at u && (k s' || plus_class s' k)
  end.

(** A matcher for the single unit [c] followed by what [k] accepts. *)
Definition literal (c : N) (s : js_string) (k : js_string -> bool) : bool :=
  match s with
  | [] => false
  | d :: s' => N.eqb d c && k s'
  end.

(** [$] *)
Definition end_of_input (s : js_string) : bool :=
  match s with
  | [] => true
  | _ :: _ => false
  end.

(** [/^[^\s@]+@[^\s@]+\.[^\s@]+$/.test(email)] *)
Definition emailRegex_test (email : js_string) : bool :=
  plus_class email
    (fun s1 => literal at_sign s1
    (fun s2 => plus_class s2
    (fun s3 => literal full_stop s3
    (fun s4 => plus_class s4 end_of_input)))).

(** What the validation reads and writes: the value and the border colour
    of [#email], the text and the [aria-live] attribute of [#email-error]. *)
Record fields := {
  value : js_string;
  borderColor : string;
  errorText : string;
  aria_live : option string
}.

(** [showError(message)] *)
Definition showError (message : string) (f : fields) : fields :=
  {| value := value f;
     borderColor := "var(--coral-accent)";
     errorText := message;
     aria_live := Some "polite" |}.

(** [clearError()] *)
Definition clearError (f : fields) : fields :=
  {| value := value f;
     borderColor := "var(--gray-300)";
     errorText := "";
     aria_live := aria_live f |}.

(** [!email]: the empty string is the only falsy one. *)
Definition is_empty_string (s : js_string) : bool :=
  match s with
  | [] => true
  | _ :: _ => false
  end.

(** [validateEmail()]: the value returned and the fields afterwards. *)
Definition validateEmail (f : fields) : bool * fields :=
  let email := trim (value f) in
  if is_empty_string email
  then (false, showError "Email is required" f)
  else if negb (emailRegex_test email)
  then (false, showError "Please enter a valid email address" f)
  else (true, clearError f).

End Form.

(** ** [isInViewport(element)] *)

Module Viewport.

(** [element.getBoundingClientRect()] *)
Record rect := { top : Q; left : Q; bottom : Q; right : Q }.

Record window := {
  innerHeight : Q;
  innerWidth : Q;
  clientHeight : Q;    (* of [document.documentElement] *)
  clientWidth : Q
}.

(** [a || b] on numbers: [b] when [a] is zero. *)
Definition or_number (a b : Q) : Q := if Qeq_bool a 0 then b else a.

(** [isInViewport(element)] *)
Definition isInViewport (r : rect) (w : window) : bool :=
  num_le 0 (top r) &&
  num_le 0 (left r) &&
  num_le (bottom r) (or_number (innerHeight w) (clientHeight w)) &&
  num_le (right r) (or_number (innerWidth w) (clientWidth w)).

End Viewport.

(** ** class PerformanceOptimizer: [optimizeScrollPerformance] *)

Module ScrollFrames.

(** The closure variable [ticking], the animation frames requested and not
    yet run, and the number of runs of [updateScrollEffects] so far. *)
Record closure := { ticking : bool; requested : nat; updates : nat }.

Definition initial : closure :=
  {| ticking := false; requested := 0; updates := 0 |}.

(** [requestScrollUpdate()], the scroll listener. *)
Definition requestScrollUpdate (s : closure) : closure :=
  if negb (ticking s)
  then {| ticking := true; requested := S (requested s); updates := updates s |}
  else s.

(** The window runs one requested frame, if there is one:
    [updateScrollEffects()] ends with [ticking = false]. *)
Definition frame (s : closure) : closure :=
  match requested s with
  | O => s
  | S n => {| ticking := false; requested := n; updates := S (updates s) |}
  end.

Inductive action : Type :=
| Scroll
| Frame.

Definition act (s : closure) (a : action) : closure :=
  match a with
  | Scroll => requestScrollUpdate s
  | Frame => frame s
  end.

Definition run (actions : list action) (s : closure) : closure :=
  fold_left act actions s.

(** The number of scroll events among the actions. *)
Definition count_scrolls (actions : list action) : nat :=
  List.length (filter (fun a => match a with
                                | Scroll => true
                                | Frame => false
                                end) actions).

(** At most one frame is requested, and [ticking] says whether one is. *)
Definition one_frame_at_most (s : closure) : Prop :=
  (requested s = 0%nat /\ ticking s = false) \/
  (requested s = 1%nat /\ ticking s = true).

End ScrollFrames.

(** * Properties *)

(** ** Substring search *)

Lemma prefix_includes (s sub : string) :
  String.prefix sub s = true -> includes s sub = true.
Proof.
  intros H. destruct s; cbn [includes]; rewrite H; reflexivity.
Qed.

Lemma includes_tail (c : ascii) (s sub : string) :
  includes s sub = true -> includes (String c s) sub = true.
Proof.
  intros H. cbn [includes]. rewrite H. apply orb_true_r.
Qed.

Lemma prefix_app_includes (p q s : string) :
  String.prefix (p ++ q) s = true -> includes s q = true.
Proof.
  revert s. induction p as [| c p IH]; intros s H.
  - apply prefix_includes. exact H.
  - destruct s as [| d s]; simpl in H; [discriminate |].
    destruct (Ascii.ascii_dec c d); [| discriminate].
    apply includes_tail, IH, H.
Qed.

(** A text that holds [p ++ q] holds [q]: what holds "partly cloudy" holds
    "cloudy", what holds "thundery" holds... nothing shorter at its end, but
    what holds "heavy rain" holds "rain". *)
Lemma includes_suffix (p q s : string) :
  includes s (p ++ q) = true -> includes s q = true.
Proof.
  induction s as [| c s IH]; cbn [includes]; intros H.
  - apply orb_true_iff in H. destruct H as [H | H]; [| discriminate].
    apply (prefix_app_includes p q "") in H. exact H.
  - apply orb_true_iff in H. destruct H as [H | H].
    + apply (prefix_app_includes p q (String c s)) in H. exact H.
    + rewrite (IH H). apply orb_true_r.
Qed.

Lemma partly_cloudy_is_cloudy (s : string) :
  includes s "partly cloudy" = true -> includes s "cloudy" = true.
Proof. apply (includes_suffix "partly " "cloudy"). Qed.

Lemma not_cloudy_not_partly (s : string) :
  includes s "cloudy" = false -> includes s "partly cloudy" = false.
Proof.
  intros H. destruct (includes s "partly cloudy") eqn:E; [| reflexivity].
  apply partly_cloudy_is_cloudy in E. congruence.
Qed.

(** ** Numbers *)

Lemma num_lt_iff (a b : Q) : num_lt a b = true <-> (a < b)%Q.
Proof.
  unfold num_lt. rewrite negb_true_iff. split; intros H.
  - apply Qnot_le_lt. intros L. apply Qle_bool_iff in L. congruence.
  - destruct (Qle_bool b a) eqn:E; [| reflexivity].
    apply Qle_bool_iff in E. exfalso. exact (Qlt_not_le _ _ H E).
Qed.

Lemma num_le_false (a b : Q) : (b < a)%Q -> num_le a b = false.
Proof.
  intros H. unfold num_le. destruct (Qle_bool a b) eqn:E; [| reflexivity].
  apply Qle_bool_iff in E. exfalso. exact (Qlt_not_le _ _ H E).
Qed.

Lemma num_lt_false (a b : Q) : (b <= a)%Q -> num_lt a b = false.
Proof.
  intros H. unfold num_lt. apply Qle_bool_iff in H. rewrite H. reflexivity.
Qed.

(** ** The scorer *)

Lemma weather_adjustment_range (weather : string) :
  -5 <= weather_adjustment weather <= 3.
Proof.
  unfold weather_adjustment.
  repeat match goal with |- context [if ?b then _ else _] => destruct b end; lia.
Qed.

Lemma temperature_adjustment_range (temp : Q) :
  -1 <= temperature_adjustment temp <= 1.
Proof.
  unfold temperature_adjustment.
  repeat match goal with |- context [if ?b then _ else _] => destruct b end; lia.
Qed.

Lemma humidity_adjustment_range (humidity : Q) :
  -1 <= humidity_adjustment humidity <= 1.
Proof.
  unfold humidity_adjustment.
  repeat match goal with |- context [if ?b then _ else _] => destruct b end; lia.
Qed.

(** Before the clamp the sum lies in [-2, 10]: the lower clamp is needed,
    the upper one never changes the value. *)
Lemma unclamped_score_range (weather : string) (temp humidity : Q) :
  -2 <= unclamped_score weather temp humidity <= 10.
Proof.
  unfold unclamped_score.
  pose proof (weather_adjustment_range weather).
  pose proof (temperature_adjustment_range temp).
  pose proof (humidity_adjustment_range humidity).
  lia.
Qed.

(** C5 (amended).  For every weather text, temperature and humidity the
    score is an integer between 0 and 10.  In the worst case, a text that
    holds "thundery" and none of "fair", "sunny", "cloudy", "rain" and
    "shower" (so that the thundery rule is the one that fires), with a
    temperature above 32 and a humidity above 85, the sum is -2 and the
    result is clamped to 0.  In the best case, "fair" or "sunny" with a
    temperature in [24, 32] and a humidity below 70, the result is 10. *)
Theorem score_in_range_and_extremes (weather : string) (temp humidity : Q) :
  0 <= calculateSuitabilityScore weather temp humidity <= 10 /\
  (includes weather "thundery" = true ->
   includes weather "fair" = false ->
   includes weather "sunny" = false ->
   includes weather "cloudy" = false ->
   includes weather "rain" = false ->
   includes weather "shower" = false ->
   (32 < temp)%Q -> (85 < humidity)%Q ->
   unclamped_score weather temp humidity = -2 /\
   calculateSuitabilityScore weather temp humidity = 0) /\
  (includes weather "fair" = true \/ includes weather "sunny" = true ->
   (24 <= temp)%Q -> (temp <= 32)%Q -> (humidity < 70)%Q ->
   unclamped_score weather temp humidity = 10 /\
   calculateSuitabilityScore weather temp humidity = 10).
Proof.
  split; [| split].
  - unfold calculateSuitabilityScore, Math_max, Math_min. lia.
  - intros Hth Hf Hs Hc Hr Hsh Ht Hh.
    assert (W : weather_adjustment weather = -5).
    { unfold weather_adjustment.
      rewrite Hf, Hs, (not_cloudy_not_partly _ Hc), Hc, Hr, Hsh, Hth.
      reflexivity. }
    assert (T : temperature_adjustment temp = -1).
    { unfold temperature_adjustment.
      rewrite (num_le_false temp 32 Ht), andb_false_r.
      apply num_lt_iff in Ht. rewrite Ht. reflexivity. }
    assert (U : humidity_adjustment humidity = -1).
    { unfold humidity_adjustment.
      rewrite (num_lt_false humidity 70).
      - apply num_lt_iff in Hh. rewrite Hh. reflexivity.
      - apply Qlt_le_weak. apply Qlt_trans with (y := 85%Q); [reflexivity | exact Hh]. }
    unfold calculateSuitabilityScore, unclamped_score, Math_max, Math_min.
    rewrite W, T, U. split; reflexivity.
  - intros Hw Hlo Hhi Hh.
    assert (W : weather_adjustment weather = 3).
    { unfold weather_adjustment.
      destruct Hw as [Hw | Hw]; rewrite Hw; [| rewrite orb_true_r]; reflexivity. }
    assert (T : temperature_adjustment temp = 1).
    { unfold temperature_adjustment, num_le.
      apply Qle_bool_iff in Hlo, Hhi. rewrite Hlo, Hhi. reflexivity. }
    assert (U : humidity_adjustment humidity = 1).
    { unfold humidity_adjustment. apply num_lt_iff in Hh. rewrite Hh. reflexivity. }
    unfold calculateSuitabilityScore, unclamped_score, Math_max, Math_min.
    rewrite W, T, U. split; reflexivity.
Qed.

Lemma score_in_range_and_extremes_witness :
  calculateSuitabilityScore "thundery" 33 90 = 0 /\
  calculateSuitabilityScore "fair (day)" 28 60 = 10.
Proof.
  split.
  - destruct (score_in_range_and_extremes "thundery" 33 90) as (_ & H & _).
    apply H; reflexivity.
  - destruct (score_in_range_and_extremes "fair (day)" 28 60) as (_ & _ & H).
    apply H; [left; reflexivity | discriminate | discriminate | reflexivity].
Defined.

(** C5, the claim as written fails: this text holds "thundery" and neither
    "rain" nor "shower", the temperature is above 32 and the humidity above
    85, and yet the cloudy rule fires first and the score is 4, not 0. *)
Lemma thundery_without_rain_not_zero :
  includes "cloudy with thundery spells" "thundery" = true /\
  includes "cloudy with thundery spells" "rain" = false /\
  includes "cloudy with thundery spells" "shower" = false /\
  (32 < 33)%Q /\ (85 < 90)%Q /\
  calculateSuitabilityScore "cloudy with thundery spells" 33 90 = 4 /\
  calculateSuitabilityScore "cloudy with thundery spells" 33 90 <> 0.
Proof.
  repeat split; try reflexivity. discriminate.
Qed.

(** C6.  The rating follows the fixed thresholds, each inclusive at its low
    end: a score of at least 8 is Excellent, from 6 to 7 Good, from 4 to 5
    Fair, below 4 Poor; so 8 is Excellent, 7 Good, 5 and 4 Fair, 3 Poor.
    [getCleanupSuitability] applies them to the clamped score. *)
Theorem rating_thresholds (score : Z) :
  (8 <= score -> rating_of_score score = "Excellent") /\
  (6 <= score < 8 -> rating_of_score score = "Good") /\
  (4 <= score < 6 -> rating_of_score score = "Fair") /\
  (score < 4 -> rating_of_score score = "Poor") /\
  rating_of_score 8 = "Excellent" /\
  rating_of_score 7 = "Good" /\
  rating_of_score 5 = "Fair" /\
  rating_of_score 4 = "Fair" /\
  rating_of_score 3 = "Poor" /\
  (forall forecast tempHigh humidity,
      getCleanupSuitability forecast tempHigh humidity =
      rating_of_score
        (calculateSuitabilityScore (toLowerCase forecast) tempHigh humidity)).
Proof.
  unfold rating_of_score.
  repeat split; try reflexivity; intros H;
    destruct (Z.geb_spec score 8); destruct (Z.geb_spec score 6);
    destruct (Z.geb_spec score 4); try reflexivity; lia.
Qed.

(** Each of the five scores of C6 is reached by the service on some day. *)
Lemma rating_thresholds_witness :
  getCleanupSuitability "Fair (Day)" 20 75 = "Excellent" /\
  getCleanupSuitability "Partly Cloudy" 20 75 = "Good" /\
  getCleanupSuitability "Windy" 20 75 = "Fair" /\
  getCleanupSuitability "Cloudy" 33 90 = "Fair" /\
  getCleanupSuitability "Light Rain" 28 75 = "Poor".
Proof.
  split; [| split; [| split; [| split]]].
  - destruct (rating_thresholds 8) as (_ & _ & _ & _ & _ & _ & _ & _ & _ & E).
    rewrite E.
    apply (proj1 (rating_thresholds
                    (calculateSuitabilityScore (toLowerCase "Fair (Day)") 20 75))).
    vm_compute. discriminate.
  - destruct (rating_thresholds 7) as (_ & _ & _ & _ & _ & _ & _ & _ & _ & E).
    rewrite E.
    apply (proj1 (proj2 (rating_thresholds
                    (calculateSuitabilityScore (toLowerCase "Partly Cloudy") 20 75)))).
    vm_compute. split; [discriminate | reflexivity].
  - destruct (rating_thresholds 5) as (_ & _ & _ & _ & _ & _ & _ & _ & _ & E).
    rewrite E.
    apply (proj1 (proj2 (proj2 (rating_thresholds
                    (calculateSuitabilityScore (toLowerCase "Windy") 20 75))))).
    vm_compute. split; [discriminate | reflexivity].
  - destruct (rating_thresholds 4) as (_ & _ & _ & _ & _ & _ & _ & _ & _ & E).
    rewrite E.
    apply (proj1 (proj2 (proj2 (rating_thresholds
                    (calculateSuitabilityScore (toLowerCase "Cloudy") 33 90))))).
    vm_compute. split; [discriminate | reflexivity].
  - destruct (rating_thresholds 3) as (_ & _ & _ & _ & _ & _ & _ & _ & _ & E).
    rewrite E.
    apply (proj1 (proj2 (proj2 (proj2 (rating_thresholds
                    (calculateSuitabilityScore (toLowerCase "Light Rain") 28 75)))))).
    vm_compute. reflexivity.
Defined.

(** ** The mappers *)

(** The thunder rule is the first of [getWeatherIcon]: nothing else in the
    text matters once it holds a thunder term. *)
Lemma thunder_icon (forecast : string) :
  includes (toLowerCase forecast) "thundery" = true \/
  includes (toLowerCase forecast) "thunder" = true ->
  getWeatherIcon forecast = "fa-bolt".
Proof.
  intros H. unfold getWeatherIcon.
  destruct H as [H | H]; rewrite H; [| rewrite orb_true_r]; reflexivity.
Qed.

(** C8.  The thunder check comes before the rain and shower checks: a text
    that holds (in any case) a thunder term and a rain or shower term gets
    the lightning icon, and neither of the two rain icons. *)
Theorem thunder_precedes_rain (forecast : string) :
  includes (toLowerCase forecast) "thundery" = true \/
  includes (toLowerCase forecast) "thunder" = true ->
  includes (toLowerCase forecast) "rain" = true \/
  includes (toLowerCase forecast) "shower" = true ->
  getWeatherIcon forecast = "fa-bolt" /\
  getWeatherIcon forecast <> "fa-cloud-drizzle" /\
  getWeatherIcon forecast <> "fa-cloud-rain".
Proof.
  intros Hthunder _. rewrite (thunder_icon forecast Hthunder).
  repeat split; discriminate.
Qed.

Lemma thunder_precedes_rain_witness :
  getWeatherIcon "Thundery Showers" = "fa-bolt" /\
  getWeatherIcon "Thundery Showers" <> "fa-cloud-drizzle" /\
  getWeatherIcon "Thundery Showers" <> "fa-cloud-rain".
Proof.
  apply (thunder_precedes_rain "Thundery Showers").
  - left. reflexivity.
  - right. reflexivity.
Defined.

(** In [getWeatherIcon] the "cloudy" rule stands before the "partly cloudy"
    rule, and every text that holds "partly cloudy" holds "cloudy". *)
Lemma cloudy_icon (forecast : string) :
  includes (toLowerCase forecast) "thundery" = false ->
  includes (toLowerCase forecast) "thunder" = false ->
  includes (toLowerCase forecast) "rain" = false ->
  includes (toLowerCase forecast) "shower" = false ->
  includes (toLowerCase forecast) "cloudy" = true ->
  getWeatherIcon forecast = "fa-cloud".
Proof.
  intros Hty Ht Hr Hs Hc. unfold getWeatherIcon.
  rewrite Hty, Ht, Hr, Hs, Hc.
  destruct (includes (toLowerCase forecast) "heavy rain") eqn:E1.
  { apply (includes_suffix "heavy " "rain") in E1. congruence. }
  destruct (includes (toLowerCase forecast) "heavy shower") eqn:E2.
  { apply (includes_suffix "heavy " "shower") in E2. congruence. }
  reflexivity.
Qed.

(** In [getCleanupRecommendation] the "partly cloudy" rule stands before
    the "cloudy" rule. *)
Lemma cloudy_recommendation (forecast : string) :
  includes (toLowerCase forecast) "thundery" = false ->
  includes (toLowerCase forecast) "rain" = false ->
  includes (toLowerCase forecast) "shower" = false ->
  includes (toLowerCase forecast) "fair" = false ->
  includes (toLowerCase forecast) "sunny" = false ->
  includes (toLowerCase forecast) "cloudy" = true ->
  getCleanupRecommendation forecast =
  if includes (toLowerCase forecast) "partly cloudy"
  then "Great conditions!" else "Good for cleanup!".
Proof.
  intros Hty Hr Hs Hf Hsu Hc. unfold getCleanupRecommendation.
  rewrite Hty, Hr, Hs, Hf, Hsu, Hc.
  destruct (includes (toLowerCase forecast) "heavy rain") eqn:E1.
  { apply (includes_suffix "heavy " "rain") in E1. congruence. }
  reflexivity.
Qed.

(** C9.  The two mappers order their rules independently.  For a text with
    no thunder, rain or shower term, the icon is the cloud icon as soon as
    the text holds "cloudy", so "Cloudy" and "Partly Cloudy" share it; the
    recommendation (for a text with no fair or sunny term either) is
    "Great conditions!" when the text holds "partly cloudy" and
    "Good for cleanup!" when it holds "cloudy" only. *)
Theorem icon_and_recommendation_orders (forecast : string) :
  (includes (toLowerCase forecast) "thundery" = false ->
   includes (toLowerCase forecast) "thunder" = false ->
   includes (toLowerCase forecast) "rain" = false ->
   includes (toLowerCase forecast) "shower" = false ->
   includes (toLowerCase forecast) "fair" = false ->
   includes (toLowerCase forecast) "sunny" = false ->
   (includes (toLowerCase forecast) "partly cloudy" = true ->
    getWeatherIcon forecast = "fa-cloud" /\
    getCleanupRecommendation forecast = "Great conditions!") /\
   (includes (toLowerCase forecast) "cloudy" = true ->
    includes (toLowerCase forecast) "partly cloudy" = false ->
    getWeatherIcon forecast = "fa-cloud" /\
    getCleanupRecommendation forecast = "Good for cleanup!")) /\
  getWeatherIcon "Cloudy" = "fa-cloud" /\
  getWeatherIcon "Partly Cloudy" = "fa-cloud" /\
  getCleanupRecommendation "Partly Cloudy" = "Great conditions!" /\
  getCleanupRecommendation "Cloudy" = "Good for cleanup!".
Proof.
  split; [| repeat split].
  intros Hty Ht Hr Hs Hf Hsu. split.
  - intros Hpc. pose proof (partly_cloudy_is_cloudy _ Hpc) as Hc. split.
    + apply cloudy_icon; assumption.
    + rewrite cloudy_recommendation by assumption. rewrite Hpc. reflexivity.
  - intros Hc Hpc. split.
    + apply cloudy_icon; assumption.
    + rewrite cloudy_recommendation by assumption. rewrite Hpc. reflexivity.
Qed.

Lemma icon_and_recommendation_orders_witness :
  (getWeatherIcon "Partly Cloudy (Day)" = "fa-cloud" /\
   getCleanupRecommendation "Partly Cloudy (Day)" = "Great conditions!") /\
  (getWeatherIcon "Cloudy" = "fa-cloud" /\
   getCleanupRecommendation "Cloudy" = "Good for cleanup!").
Proof.
  split.
  - destruct (icon_and_recommendation_orders "Partly Cloudy (Day)") as (H & _).
    apply H; reflexivity.
  - destruct (icon_and_recommendation_orders "Cloudy") as (H & _).
    apply H; reflexivity.
Defined.

(** ** The daily outlook *)

(** C10.  The rating of a day's outlook is [getCleanupSuitability] of the
    day's text, its high temperature and its high humidity: two days that
    agree on these three get the same rating, whatever their low
    temperature, low humidity, wind and date are. *)
Theorem suitability_reads_highs_only (day day' : FourDay.day) :
  Outlook.cleanupSuitability (daily_outlook day) =
  getCleanupSuitability (FourDay.forecast day)
                        (FourDay.high (FourDay.temperature day))
                        (FourDay.high (FourDay.relative_humidity day)) /\
  (FourDay.forecast day = FourDay.forecast day' ->
   FourDay.high (FourDay.temperature day) =
   FourDay.high (FourDay.temperature day') ->
   FourDay.high (FourDay.relative_humidity day) =
   FourDay.high (FourDay.relative_humidity day') ->
   Outlook.cleanupSuitability (daily_outlook day) =
   Outlook.cleanupSuitability (daily_outlook day')).
Proof.
  split; [reflexivity |].
  intros Hf Ht Hh. cbn [daily_outlook Outlook.cleanupSuitability].
  rewrite Hf, Ht, Hh. reflexivity.
Qed.

Lemma suitability_reads_highs_only_witness :
  Outlook.cleanupSuitability (daily_outlook Sample.friday) =
  Outlook.cleanupSuitability (daily_outlook Sample.saturday).
Proof.
  apply (suitability_reads_highs_only Sample.friday Sample.saturday);
    reflexivity.
Defined.

(** ** The selections of [getCurrentWeather] *)

Section FirstMatch.

Context {A : Type} (p : A -> bool).

(** [Array.prototype.find] returns the first element that passes. *)
Lemma find_first (before after : list A) (x : A) :
  (forall y, In y before -> p y = false) ->
  p x = true ->
  find p (before ++ x :: after) = Some x.
Proof.
  intros Hb Hx. induction before as [| y before IH]; simpl.
  - rewrite Hx. reflexivity.
  - rewrite (Hb y (or_introl eq_refl)). apply IH.
    intros z Hz. apply Hb. right. exact Hz.
Qed.

Lemma find_none_iff (l : list A) :
  find p l = None <-> (forall y, In y l -> p y = false).
Proof.
  split.
  - apply find_none.
  - intros H. induction l as [| y l IH]; simpl; [reflexivity |].
    rewrite (H y (or_introl eq_refl)). apply IH.
    intros z Hz. apply H. right. exact Hz.
Qed.

End FirstMatch.

Lemma station_eqb_false (r : AirTemp.reading) :
  AirTemp.station_id r <> "S07" -> AirTemp.station_id r <> "S43" ->
  String.eqb (AirTemp.station_id r) "S07" || String.eqb (AirTemp.station_id r) "S43"
  = false.
Proof.
  intros H7 H43.
  apply String.eqb_neq in H7, H43. rewrite H7, H43. reflexivity.
Qed.

Lemma station_eqb_true (r : AirTemp.reading) :
  AirTemp.station_id r = "S07" \/ AirTemp.station_id r = "S43" ->
  String.eqb (AirTemp.station_id r) "S07" || String.eqb (AirTemp.station_id r) "S43"
  = true.
Proof.
  intros [H | H]; rewrite H; reflexivity.
Qed.

(** C2 (amended).  The temperature shown is the rounded value of the first
    reading, in list order, whose station is S07 or S43: S07's value when
    no S43 reading stands before it, S43's value when no S07 reading stands
    before it (in particular when S07 is absent).  When no reading is from
    S07 or S43 the default "28Â°C" is shown. *)
Theorem first_east_station_wins (readings before after : list AirTemp.reading)
        (r : AirTemp.reading) :
  ((forall x, In x before ->
              AirTemp.station_id x <> "S07" /\ AirTemp.station_id x <> "S43") ->
   AirTemp.station_id r = "S07" \/ AirTemp.station_id r = "S43" ->
   eastTemp (before ++ r :: after) = Some r /\
   temperature_of (before ++ r :: after) =
   Z_toString (Math_round (AirTemp.value r)) ++ "Â°C") /\
  ((forall x, In x readings ->
              AirTemp.station_id x <> "S07" /\ AirTemp.station_id x <> "S43") ->
   eastTemp readings = None /\
   temperature_of readings = "28Â°C").
Proof.
  split.
  - intros Hb Hr.
    assert (E : eastTemp (before ++ r :: after) = Some r).
    { unfold eastTemp. apply find_first.
      - intros y Hy. destruct (Hb y Hy). apply station_eqb_false; assumption.
      - apply station_eqb_true, Hr. }
    split; [exact E |]. unfold temperature_of. rewrite E. reflexivity.
  - intros Hn.
    assert (E : eastTemp readings = None).
    { unfold eastTemp. apply find_none_iff.
      intros y Hy. destruct (Hn y Hy). apply station_eqb_false; assumption. }
    split; [exact E |]. unfold temperature_of. rewrite E. reflexivity.
Qed.

Lemma first_east_station_wins_witness :
  temperature_of [Sample.s100; Sample.s07; Sample.s43] = "31Â°C" /\
  temperature_of [Sample.s100; Sample.s43] = "29Â°C" /\
  temperature_of [Sample.s100] = "28Â°C".
Proof.
  split; [| split].
  - apply (first_east_station_wins [] [Sample.s100] [Sample.s43] Sample.s07).
    + intros x [<- | []]. split; discriminate.
    + left. reflexivity.
  - apply (first_east_station_wins [] [Sample.s100] [] Sample.s43).
    + intros x [<- | []]. split; discriminate.
    + right. reflexivity.
  - apply (first_east_station_wins [Sample.s100] [] [] Sample.s07).
    intros x [<- | []]. split; discriminate.
Defined.

(** C2, the claim as written fails: with S43's reading before S07's the
    temperature shown is S43's 29, not S07's 31. *)
Lemma s43_before_s07_wins :
  In Sample.s07 [Sample.s100; Sample.s43; Sample.s07] /\
  In Sample.s43 [Sample.s100; Sample.s43; Sample.s07] /\
  Z_toString (Math_round (AirTemp.value Sample.s07)) = "31" /\
  eastTemp [Sample.s100; Sample.s43; Sample.s07] = Some Sample.s43 /\
  temperature_of [Sample.s100; Sample.s43; Sample.s07] = "29Â°C" /\
  temperature_of [Sample.s100; Sample.s43; Sample.s07] <>
  Z_toString (Math_round (AirTemp.value Sample.s07)) ++ "Â°C".
Proof.
  repeat split; try reflexivity; simpl; auto.
  vm_compute. discriminate.
Qed.

(** What [pasirRisForecast] does: one search with the two terms on an equal
    footing, so the first entry that holds either of them is taken. *)
Lemma pasirRisForecast_first_of_either
      (before after : list TwoHour.area_forecast) (x : TwoHour.area_forecast) :
  (forall y, In y before ->
             includes (toLowerCase (TwoHour.area y)) "pasir ris" = false /\
             includes (toLowerCase (TwoHour.area y)) "east" = false) ->
  includes (toLowerCase (TwoHour.area x)) "pasir ris" = true \/
  includes (toLowerCase (TwoHour.area x)) "east" = true ->
  pasirRisForecast (before ++ x :: after) = Some x.
Proof.
  intros Hb Hx. unfold pasirRisForecast.
  rewrite (find_first _ before after x).
  - reflexivity.
  - intros y Hy. destruct (Hb y Hy) as [H1 H2]. rewrite H1, H2. reflexivity.
  - destruct Hx as [H | H]; rewrite H; [| rewrite orb_true_r]; reflexivity.
Qed.

Lemma pasirRisForecast_none (forecasts : list TwoHour.area_forecast) :
  pasirRisForecast forecasts = None <-> forecasts = [].
Proof.
  unfold pasirRisForecast. split.
  - destruct forecasts as [| x l]; [reflexivity |].
    destruct (find _ (x :: l)); simpl; discriminate.
  - intros ->. reflexivity.
Qed.

(** C3, at the failing input: the batch lists "Jurong East" before
    "Pasir Ris"; the entry chosen is "Jurong East", which holds "east" and
    not "pasir ris", although an entry that holds "pasir ris" is there, and
    the service reports the "Cloudy" of Jurong East.  In the other order
    the entry of Pasir Ris is chosen. *)
Theorem east_entry_shadows_pasir_ris :
  pasirRisForecast [Sample.jurong_east; Sample.pasir_ris] = Some Sample.jurong_east /\
  includes (toLowerCase (TwoHour.area Sample.jurong_east)) "pasir ris" = false /\
  includes (toLowerCase (TwoHour.area Sample.jurong_east)) "east" = true /\
  includes (toLowerCase (TwoHour.area Sample.pasir_ris)) "pasir ris" = true /\
  fst (getCurrentWeather Sample.east_first Sample.start) =
  Returned (processWeatherData "Cloudy" "31Â°C") /\
  pasirRisForecast [Sample.pasir_ris; Sample.jurong_east] = Some Sample.pasir_ris.
Proof.
  repeat split.
Qed.

(** What [latestForecast] does: the first item, in list order, whose
    timestamp is not after now. *)
Lemma latestForecast_first_not_after
      (before after : list TwoHour.item) (x : TwoHour.item) (currentTime : string) :
  (forall y, In y before -> str_le (TwoHour.timestamp y) currentTime = false) ->
  str_le (TwoHour.timestamp x) currentTime = true ->
  latestForecast (before ++ x :: after) currentTime = Some x.
Proof.
  intros Hb Hx. unfold latestForecast.
  rewrite (find_first _ before after x Hb Hx). reflexivity.
Qed.

Lemma latestForecast_none (items : list TwoHour.item) (currentTime : string) :
  latestForecast items currentTime = None <-> items = [].
Proof.
  unfold latestForecast. split.
  - destruct items as [| x l]; [reflexivity |].
    destruct (find _ (x :: l)); simpl; discriminate.
  - intros ->. reflexivity.
Qed.

(** When every item is in the future the first one is taken. *)
Lemma latestForecast_all_future
      (x : TwoHour.item) (rest : list TwoHour.item) (currentTime : string) :
  (forall y, In y (x :: rest) -> str_le (TwoHour.timestamp y) currentTime = false) ->
  latestForecast (x :: rest) currentTime = Some x.
Proof.
  intros H. unfold latestForecast.
  rewrite (proj2 (find_none_iff _ (x :: rest)) H). reflexivity.
Qed.

(** C4, at the failing input: two batches in ascending order, both not
    after now; the batch chosen is the older one of 08:00, not the latest
    one of 10:00, and the service reports the "Thundery Showers" of 08:00
    for Pasir Ris instead of the "Fair (Day)" of 10:00. *)
Theorem first_past_batch_not_latest :
  latestForecast [Sample.batch_0800; Sample.batch_1000] Sample.evening
  = Some Sample.batch_0800 /\
  fst (getCurrentWeather Sample.two_batches Sample.start) =
  Returned (processWeatherData "Thundery Showers" "31Â°C") /\
  str_le (TwoHour.timestamp Sample.batch_0800) Sample.evening = true /\
  str_le (TwoHour.timestamp Sample.batch_1000) Sample.evening = true /\
  str_le (TwoHour.timestamp Sample.batch_1000)
         (TwoHour.timestamp Sample.batch_0800) = false /\
  Sample.batch_0800 <> Sample.batch_1000.
Proof.
  repeat split. discriminate.
Qed.

(** ** One run of the pipeline *)

Ltac step :=
  cbv beta iota delta
      [updateWeatherDisplay getCurrentWeather getWeatherForecast
       renderFallbackWeather renderWeather renderForecast
       try_catch bind fetch json prop emit throw ret get_dom set_dom];
  cbn [dom log ok body negb].

Ltac tidy_log := rewrite <- ?app_assoc; cbn [app].

Arguments latestForecast : simpl never.
Arguments pasirRisForecast : simpl never.
Arguments temperature_of : simpl never.
Arguments processWeatherData : simpl never.
Arguments show_weather : simpl never.
Arguments show_forecast : simpl never.

(** The driver, given what its first step does. *)
Lemma run_when_current_throws (w : world) (st st1 : state) (e : exn) :
  getCurrentWeather w st = (Thrown e, st1) ->
  updateWeatherDisplay w st =
  (Returned tt,
   {| dom := show_weather fallback_weather (dom st1);
      log := log st1 ++ [ConsoleWarn "Weather service unavailable:" e;
                         CallRenderWeather fallback_weather] |}).
Proof.
  intros H. unfold updateWeatherDisplay, try_catch, bind at 1.
  rewrite H. step. tidy_log. reflexivity.
Qed.

Lemma run_when_current_returns (w : world) (st st1 st2 : state)
      (data : Weather.data) (days : list Outlook.t) :
  getCurrentWeather w st = (Returned data, st1) ->
  getWeatherForecast w st1 = (Returned days, st2) ->
  updateWeatherDisplay w st =
  (Returned tt,
   {| dom := show_forecast days (show_weather data (dom st2));
      log := log st2 ++ [CallRenderWeather data; CallRenderForecast days] |}).
Proof.
  intros H1 H2. unfold updateWeatherDisplay, try_catch, bind at 1 2.
  rewrite H1, H2. step. tidy_log. reflexivity.
Qed.

(** [getWeatherForecast] never throws: its [catch] returns the empty array.
    It leaves the page alone and calls no renderer. *)
Lemma getWeatherForecast_returns (w : world) (st : state) :
  exists days events,
    getWeatherForecast w st =
    (Returned days, {| dom := dom st; log := log st ++ events |}) /\
    render_calls events = [] /\
    (four_day_unusable (four_day_feed w) = true -> days = []) /\
    (forall data item,
        four_day_feed w = Response true (Some data) ->
        nth_error (FourDay.items data) 0 = Some item ->
        days = map daily_outlook (firstn 5 (FourDay.forecasts item))).
Proof.
  destruct w as [f2 fa f4 t]. cbn [four_day_feed].
  destruct f4 as [| [|] [data |]].
  - eexists [], _. step. cbn. tidy_log.
    repeat split; try reflexivity; intros; discriminate.
  - destruct data as [[| item rest]].
    + eexists [], _. step. cbn. tidy_log.
      repeat split; try reflexivity. intros data' item' [= <-] H. discriminate.
    + eexists _, _. step. cbn. tidy_log.
      repeat split; try reflexivity.
      * intros; discriminate.
      * intros data' item' [= <-] [= <-]. reflexivity.
  - eexists [], _. step. cbn. tidy_log.
    repeat split; try reflexivity; intros; discriminate.
  - eexists [], _. step. cbn. tidy_log.
    repeat split; try reflexivity; intros; discriminate.
  - eexists [], _. step. cbn. tidy_log.
    repeat split; try reflexivity; intros; discriminate.
Qed.



Lemma show_forecast_nil (p : page) : show_forecast [] p = p.
Proof.
  unfold show_forecast. destruct (weather_forecast p) eqn:E; cbn; rewrite ?E; reflexivity.
Qed.

Lemma show_weather_keeps_forecast (data : Weather.data) (p : page) :
  weather_forecast (show_weather data p) = weather_forecast p.
Proof. reflexivity. Qed.




(** C7.  When all three fetches fail (in transport or with a non-success
    status) the run returns normally to its caller: the error thrown by
    the first fetch is caught by the driver, [renderWeather] receives the
    fallback triple ("28Â°C", the sun icon, "Check local weather!"), no
    other renderer is called, and the forecast display stays as it was. *)
Theorem total_failure_renders_fallback (w : world) (st : state) :
  fetch_fails (two_hour_feed w) = true ->
  fetch_fails (air_temperature_feed w) = true ->
  fetch_fails (four_day_feed w) = true ->
  exists error,
    updateWeatherDisplay w st =
    (Returned tt,
     {| dom := show_weather fallback_weather (dom st);
        log := log st ++
               [Fetch "https://api.data.gov.sg/v1/environment/2-hour-weather-forecast";
                ConsoleError "Error fetching current weather:" error;
                ConsoleWarn "Weather service unavailable:" error;
                CallRenderWeather fallback_weather] |}) /\
    weather_forecast (show_weather fallback_weather (dom st)) =
    weather_forecast (dom st) /\
    Weather.temp fallback_weather = default_temperature /\
    Weather.icon fallback_weather = "fa-sun" /\
    Weather.desc fallback_weather = "Check local weather!".
Proof.
  intros H2 _ _.
  destruct w as [f2 fa f4 t]. cbn [two_hour_feed] in H2.
  destruct f2 as [| [|] b]; try discriminate.
  - exists FetchRejected. split; [| repeat split].
    step. cbn. tidy_log. reflexivity.
  - exists (Error "Weather API unavailable"). split; [| repeat split].
    step. cbn. tidy_log. reflexivity.
Qed.

Lemma total_failure_renders_fallback_witness :
  exists error,
    updateWeatherDisplay Sample.all_down Sample.start =
    (Returned tt,
     {| dom := show_weather fallback_weather (dom Sample.start);
        log := log Sample.start ++
               [Fetch "https://api.data.gov.sg/v1/environment/2-hour-weather-forecast";
                ConsoleError "Error fetching current weather:" error;
                ConsoleWarn "Weather service unavailable:" error;
                CallRenderWeather fallback_weather] |}) /\
    weather_forecast (show_weather fallback_weather (dom Sample.start)) =
    weather_forecast (dom Sample.start) /\
    Weather.temp fallback_weather = default_temperature /\
    Weather.icon fallback_weather = "fa-sun" /\
    Weather.desc fallback_weather = "Check local weather!".
Proof.
  apply (total_failure_renders_fallback Sample.all_down Sample.start);
    reflexivity.
Defined.





(** * Further properties of the weather service *)

(** ** More on substring search and lower case *)

Lemma prefix_app_l (p q s : string) :
  String.prefix (p ++ q) s = true -> String.prefix p s = true.
Proof.
  revert s. induction p as [| c p IH]; intros s H.
  - destruct s; reflexivity.
  - destruct s as [| d s]; simpl in H |- *; [discriminate |].
    destruct (Ascii.ascii_dec c d); [| discriminate].
    apply IH, H.
Qed.

(** A text that holds [p ++ q] holds [p]: what holds "thundery" holds
    "thunder". *)
Lemma includes_prefix (p q s : string) :
  includes s (p ++ q) = true -> includes s p = true.
Proof.
  induction s as [| c s IH]; cbn [includes]; intros H.
  - apply orb_true_iff in H. destruct H as [H | H]; [| discriminate].
    apply prefix_app_l in H. rewrite H. reflexivity.
  - apply orb_true_iff in H. destruct H as [H | H].
    + apply prefix_app_l in H. rewrite H. reflexivity.
    + rewrite (IH H). apply orb_true_r.
Qed.

Lemma thundery_is_thunder (s : string) :
  includes s "thundery" = true -> includes s "thunder" = true.
Proof. apply (includes_prefix "thunder" "y"). Qed.

Lemma no_rain_no_heavy_rain (s : string) :
  includes s "rain" = false -> includes s "heavy rain" = false.
Proof.
  intros H. destruct (includes s "heavy rain") eqn:E; [| reflexivity].
  apply (includes_suffix "heavy " "rain") in E. congruence.
Qed.

Lemma no_shower_no_heavy_shower (s : string) :
  includes s "shower" = false -> includes s "heavy shower" = false.
Proof.
  intros H. destruct (includes s "heavy shower") eqn:E; [| reflexivity].
  apply (includes_suffix "heavy " "shower") in E. congruence.
Qed.

Lemma lower_ascii_idempotent (c : ascii) :
  lower_ascii (lower_ascii c) = lower_ascii c.
Proof.
  destruct c as [[] [] [] [] [] [] [] []]; vm_compute; reflexivity.
Qed.


(** ** The icon mapper, branch by branch *)

Ltac split_ifs :=
  repeat match goal with
         | |- context [if ?b then _ else _] => destruct b eqn:?
         end.

(** X1.  [getWeatherIcon] returns one of its seven icons.  It returns the
    lightning icon exactly when the lower-cased text holds "thunder" (the
    test for "thundery" decides nothing more), and the partly-cloudy icon
    exactly when the text holds "fair" and none of "thunder", "rain",
    "shower" and "cloudy": the test for "partly cloudy" can never decide,
    the "cloudy" test before it takes every such text. *)
Theorem icon_branches (forecast : string) :
  In (getWeatherIcon forecast)
     ["fa-bolt"; "fa-cloud-rain"; "fa-cloud-drizzle"; "fa-cloud";
      "fa-cloud-sun"; "fa-smog"; "fa-sun"] /\
  (getWeatherIcon forecast = "fa-bolt" <->
   includes (toLowerCase forecast) "thunder" = true) /\
  (getWeatherIcon forecast = "fa-cloud-sun" <->
   includes (toLowerCase forecast) "thunder" = false /\
   includes (toLowerCase forecast) "rain" = false /\
   includes (toLowerCase forecast) "shower" = false /\
   includes (toLowerCase forecast) "cloudy" = false /\
   includes (toLowerCase forecast) "fair" = true).
Proof.
  split; [| split].
  - unfold getWeatherIcon. split_ifs; simpl; auto 10.
  - split.
    + unfold getWeatherIcon.
      destruct (includes (toLowerCase forecast) "thundery") eqn:E1.
      { intros _. apply thundery_is_thunder, E1. }
      destruct (includes (toLowerCase forecast) "thunder"); [reflexivity |].
      cbn [orb]. split_ifs; discriminate.
    + intros H. apply thunder_icon. right. exact H.
  - split.
    + unfold getWeatherIcon.
      destruct (includes (toLowerCase forecast) "thundery") eqn:E1;
        [discriminate |].
      destruct (includes (toLowerCase forecast) "thunder") eqn:E2;
        [discriminate |].
      cbn [orb].
      destruct (includes (toLowerCase forecast) "rain") eqn:E3.
      { split_ifs; discriminate. }
      destruct (includes (toLowerCase forecast) "shower") eqn:E4.
      { rewrite orb_true_r. split_ifs; discriminate. }
      rewrite (no_rain_no_heavy_rain _ E3), (no_shower_no_heavy_shower _ E4).
      cbn [orb].
      destruct (includes (toLowerCase forecast) "cloudy") eqn:E5;
        [discriminate |].
      rewrite (not_cloudy_not_partly _ E5). cbn [orb].
      destruct (includes (toLowerCase forecast) "fair") eqn:E6.
      * intros _. repeat split.
      * split_ifs; discriminate.
    + intros (Ht & Hr & Hs & Hc & Hf). unfold getWeatherIcon.
      destruct (includes (toLowerCase forecast) "thundery") eqn:E1.
      { apply thundery_is_thunder in E1. congruence. }
      rewrite Ht, Hr, Hs, Hc, Hf.
      rewrite (no_rain_no_heavy_rain _ Hr), (no_shower_no_heavy_shower _ Hs).
      rewrite orb_true_r. reflexivity.
Qed.

(** ** The two mappers against each other *)

(** X2.  A text that draws "Not ideal for cleanup" gets the lightning icon
    or the heavy-rain icon; a text with the heavy-rain icon draws
    "Not ideal for cleanup" or, when it holds "heavy shower" without
    "heavy rain", only "Consider postponing"; a text with the light-rain
    icon always draws "Consider postponing". *)
Theorem recommendation_and_icon_agree (forecast : string) :
  (getCleanupRecommendation forecast = "Not ideal for cleanup" ->
   getWeatherIcon forecast = "fa-bolt" \/
   getWeatherIcon forecast = "fa-cloud-rain") /\
  (getWeatherIcon forecast = "fa-cloud-rain" ->
   (includes (toLowerCase forecast) "heavy rain" = true /\
    getCleanupRecommendation forecast = "Not ideal for cleanup") \/
   (includes (toLowerCase forecast) "heavy rain" = false /\
    includes (toLowerCase forecast) "heavy shower" = true /\
    getCleanupRecommendation forecast = "Consider postponing")) /\
  (getWeatherIcon forecast = "fa-cloud-drizzle" ->
   getCleanupRecommendation forecast = "Consider postponing").
Proof.
  unfold getCleanupRecommendation, getWeatherIcon.
  destruct (includes (toLowerCase forecast) "thundery") eqn:E1.
  { cbn [orb]. repeat split; try discriminate. intros _. left. reflexivity. }
  cbn [orb].
  destruct (includes (toLowerCase forecast) "thunder") eqn:E2.
  { repeat split; try discriminate. intros _. left. reflexivity. }
  destruct (includes (toLowerCase forecast) "heavy rain") eqn:E3.
  { cbn [orb]. repeat split; try discriminate.
    - intros _. right. reflexivity.
    - intros _. left. split; reflexivity. }
  cbn [orb].
  destruct (includes (toLowerCase forecast) "heavy shower") eqn:E4.
  { pose proof (includes_suffix "heavy " "shower" _ E4) as Hs.
    cbn [append] in Hs. rewrite Hs, orb_true_r.
    repeat split; try discriminate.
    intros _. right. repeat split. }
  destruct (includes (toLowerCase forecast) "rain" ||
            includes (toLowerCase forecast) "shower") eqn:E5.
  { repeat split; discriminate. }
  repeat split; split_ifs; discriminate.
Qed.

Lemma recommendation_and_icon_agree_witness :
  (getWeatherIcon "Heavy Thundery Showers with Gusty Winds" = "fa-bolt" \/
   getWeatherIcon "Heavy Thundery Showers with Gusty Winds" = "fa-cloud-rain") /\
  getCleanupRecommendation "Heavy Showers" = "Consider postponing" /\
  getCleanupRecommendation "Light Rain" = "Consider postponing".
Proof.
  split; [| split].
  - apply (recommendation_and_icon_agree "Heavy Thundery Showers with Gusty Winds").
    reflexivity.
  - destruct (recommendation_and_icon_agree "Heavy Showers") as (_ & H & _).
    destruct (H eq_refl) as [(E & _) | (_ & _ & R)]; [discriminate E | exact R].
  - apply (recommendation_and_icon_agree "Light Rain"). reflexivity.
Defined.

(** ** The scorer and the rating, by kind of text *)

Lemma rating_of_score_cases (score : Z) :
  (6 <= score -> rating_of_score score = "Good" \/ rating_of_score score = "Excellent") /\
  (score < 4 -> rating_of_score score = "Poor") /\
  (score <= 5 -> rating_of_score score = "Poor" \/ rating_of_score score = "Fair") /\
  (score < 8 -> rating_of_score score <> "Excellent").
Proof.
  unfold rating_of_score.
  destruct (Z.geb_spec score 8); destruct (Z.geb_spec score 6);
    destruct (Z.geb_spec score 4); repeat split; intros; try lia; auto;
    discriminate.
Qed.

(** X3.  What the text alone settles about the rating, whatever the
    temperature and the humidity are.  A text that holds "fair" or "sunny"
    is rated Good or Excellent, also when it holds a rain or thunder term.
    A text whose first matching rule is the rain rule is rated Poor or
    Fair, and one whose first matching rule is the thundery rule is always
    rated Poor.  A text that matches no rule is never rated Excellent. *)
Theorem rating_by_text (forecast : string) (tempHigh humidity : Q) :
  (includes (toLowerCase forecast) "fair" = true \/
   includes (toLowerCase forecast) "sunny" = true ->
   getCleanupSuitability forecast tempHigh humidity = "Good" \/
   getCleanupSuitability forecast tempHigh humidity = "Excellent") /\
  (includes (toLowerCase forecast) "fair" = false ->
   includes (toLowerCase forecast) "sunny" = false ->
   includes (toLowerCase forecast) "cloudy" = false ->
   (includes (toLowerCase forecast) "rain" = true \/
    includes (toLowerCase forecast) "shower" = true ->
    getCleanupSuitability forecast tempHigh humidity = "Poor" \/
    getCleanupSuitability forecast tempHigh humidity = "Fair") /\
   (includes (toLowerCase forecast) "rain" = false ->
    includes (toLowerCase forecast) "shower" = false ->
    includes (toLowerCase forecast) "thundery" = true ->
    getCleanupSuitability forecast tempHigh humidity = "Poor") /\
   (includes (toLowerCase forecast) "rain" = false ->
    includes (toLowerCase forecast) "shower" = false ->
    includes (toLowerCase forecast) "thundery" = false ->
    getCleanupSuitability forecast tempHigh humidity <> "Excellent")).
Proof.
  unfold getCleanupSuitability, calculateSuitabilityScore, unclamped_score,
    Math_max, Math_min.
  pose proof (temperature_adjustment_range tempHigh) as T.
  pose proof (humidity_adjustment_range humidity) as U.
  split.
  - intros Hw.
    assert (W : weather_adjustment (toLowerCase forecast) = 3).
    { unfold weather_adjustment.
      destruct Hw as [Hw | Hw]; rewrite Hw; [| rewrite orb_true_r]; reflexivity. }
    rewrite W. apply rating_of_score_cases. lia.
  - intros Hf Hs Hc. pose proof (not_cloudy_not_partly _ Hc) as Hp.
    split; [| split].
    + intros Hr.
      assert (W : weather_adjustment (toLowerCase forecast) = -3).
      { unfold weather_adjustment. rewrite Hf, Hs, Hp, Hc. cbn [orb].
        destruct Hr as [Hr | Hr]; rewrite Hr; [| rewrite orb_true_r]; reflexivity. }
      rewrite W. apply rating_of_score_cases. lia.
    + intros Hr Hsh Hth.
      assert (W : weather_adjustment (toLowerCase forecast) = -5).
      { unfold weather_adjustment. rewrite Hf, Hs, Hp, Hc, Hr, Hsh, Hth.
        reflexivity. }
      rewrite W. apply rating_of_score_cases. lia.
    + intros Hr Hsh Hth.
      assert (W : weather_adjustment (toLowerCase forecast) = 0).
      { unfold weather_adjustment. rewrite Hf, Hs, Hp, Hc, Hr, Hsh, Hth.
        reflexivity. }
      rewrite W. apply rating_of_score_cases. lia.
Qed.

Lemma rating_by_text_witness :
  (getCleanupSuitability "Fair and warm, thundery showers later" 35 99 = "Good" \/
   getCleanupSuitability "Fair and warm, thundery showers later" 35 99 = "Excellent") /\
  (getCleanupSuitability "Light Rain" 28 60 = "Poor" \/
   getCleanupSuitability "Light Rain" 28 60 = "Fair") /\
  getCleanupSuitability "Thundery spells" 28 60 = "Poor" /\
  getCleanupSuitability "Windy" 28 60 <> "Excellent".
Proof.
  split; [| split; [| split]].
  - apply (rating_by_text "Fair and warm, thundery showers later" 35 99).
    left. reflexivity.
  - destruct (rating_by_text "Light Rain" 28 60) as (_ & H).
    apply H; try reflexivity. left. reflexivity.
  - destruct (rating_by_text "Thundery spells" 28 60) as (_ & H).
    apply H; reflexivity.
  - destruct (rating_by_text "Windy" 28 60) as (_ & H).
    apply H; reflexivity.
Defined.

(** X4.  The sum of [calculateSuitabilityScore] never exceeds 10, so the
    [Math.min(10, score)] of its last line never changes it: the result is
    the sum, except for the sums -1 and -2, which become 0. *)
Theorem upper_clamp_never_acts (weather : string) (temp humidity : Q) :
  Math_min 10 (unclamped_score weather temp humidity) =
  unclamped_score weather temp humidity /\
  -2 <= unclamped_score weather temp humidity <= 10 /\
  calculateSuitabilityScore weather temp humidity =
  (if unclamped_score weather temp humidity <? 0 then 0
   else unclamped_score weather temp humidity).
Proof.
  pose proof (unclamped_score_range weather temp humidity) as R.
  unfold calculateSuitabilityScore, Math_max, Math_min.
  destruct (Z.ltb_spec (unclamped_score weather temp humidity) 0); lia.
Qed.

(** ** The [condition] of [processWeatherData] *)







(** ** More on the selections *)

Lemma find_some_first {A : Type} (p : A -> bool) (l : list A) (x : A) :
  find p l = Some x ->
  exists before after,
    l = (before ++ x :: after)%list /\ p x = true /\
    forall y, In y before -> p y = false.
Proof.
  induction l as [| a l IH]; simpl; [discriminate |].
  destruct (p a) eqn:E.
  - intros [= <-]. exists [], l. repeat split; [exact E | intros y []].
  - intros H. destruct (IH H) as (before & after & -> & Hx & Hb).
    exists (a :: before), after. repeat split; [exact Hx |].
    intros y [<- | Hy]; [exact E | apply Hb, Hy].
Qed.

Lemma find_exists {A : Type} (p : A -> bool) (l : list A) (x : A) :
  In x l -> p x = true -> exists y, find p l = Some y.
Proof.
  intros Hin Hp. destruct (find p l) as [y |] eqn:E; [exists y; reflexivity |].
  rewrite (find_none p l E x Hin) in Hp. discriminate.
Qed.

(** X6.  Where [pasirRisForecast] does find Pasir Ris: in a batch none of
    whose areas holds "east", as soon as some area holds "pasir ris" (in
    any case), the entry chosen is the first one that does, wherever it
    stands in the list.  In every batch the entry chosen is one of the
    batch, and none is chosen only when the batch is empty. *)
Theorem pasir_ris_found_without_east (forecasts : list TwoHour.area_forecast) :
  ((forall y, In y forecasts ->
              includes (toLowerCase (TwoHour.area y)) "east" = false) ->
   (exists x, In x forecasts /\
              includes (toLowerCase (TwoHour.area x)) "pasir ris" = true) ->
   exists before chosen after,
     pasirRisForecast forecasts = Some chosen /\
     forecasts = (before ++ chosen :: after)%list /\
     includes (toLowerCase (TwoHour.area chosen)) "pasir ris" = true /\
     forall y, In y before ->
               includes (toLowerCase (TwoHour.area y)) "pasir ris" = false) /\
  (forall chosen, pasirRisForecast forecasts = Some chosen -> In chosen forecasts) /\
  (pasirRisForecast forecasts = None <-> forecasts = []).
Proof.
  split; [| split].
  - intros Hno (x & Hx & Hp).
    unfold pasirRisForecast.
    destruct (find_exists
                (fun forecast =>
                   includes (toLowerCase (TwoHour.area forecast)) "pasir ris" ||
                   includes (toLowerCase (TwoHour.area forecast)) "east")
                forecasts x Hx) as (y & Hy).
    { rewrite Hp. reflexivity. }
    rewrite Hy. cbn [or_else].
    destruct (find_some_first _ _ _ Hy) as (before & after & E & Py & Hb).
    exists before, y, after. split; [reflexivity |]. split; [exact E |].
    assert (In y forecasts) as Iy.
    { rewrite E. apply in_or_app. right. left. reflexivity. }
    split.
    + rewrite (Hno y Iy), orb_false_r in Py. exact Py.
    + intros z Hz. specialize (Hb z Hz).
      apply orb_false_iff in Hb. apply Hb.
  - intros chosen. unfold pasirRisForecast.
    destruct (find _ forecasts) as [y |] eqn:E; cbn [or_else].
    + intros [= <-]. apply (find_some _ _ E).
    + destruct forecasts; simpl; [discriminate |].
      intros [= <-]. left. reflexivity.
  - apply pasirRisForecast_none.
Qed.

Lemma pasir_ris_found_without_east_witness :
  exists before chosen after,
    pasirRisForecast
      [Sample.changi;
       {| TwoHour.area := "PASIR RIS"; TwoHour.forecast := "Cloudy" |};
       Sample.pasir_ris] = Some chosen /\
    [Sample.changi;
     {| TwoHour.area := "PASIR RIS"; TwoHour.forecast := "Cloudy" |};
     Sample.pasir_ris] = (before ++ chosen :: after)%list /\
    includes (toLowerCase (TwoHour.area chosen)) "pasir ris" = true /\
    forall y, In y before ->
              includes (toLowerCase (TwoHour.area y)) "pasir ris" = false.
Proof.
  apply (pasir_ris_found_without_east
           [Sample.changi;
            {| TwoHour.area := "PASIR RIS"; TwoHour.forecast := "Cloudy" |};
            Sample.pasir_ris]).
  - intros y [<- | [<- | [<- | []]]]; reflexivity.
  - exists Sample.pasir_ris. split; [simpl; auto | reflexivity].
Defined.

(** X7.  [latestForecast] never takes a future batch while a batch that is
    not after now exists: it then takes the first such batch of the list.
    When every batch is after now it takes the first batch, and it takes
    none only from an empty list. *)
Theorem latest_is_not_future_when_possible
        (items : list TwoHour.item) (currentTime : string) :
  ((exists x, In x items /\ str_le (TwoHour.timestamp x) currentTime = true) ->
   exists before chosen after,
     latestForecast items currentTime = Some chosen /\
     items = (before ++ chosen :: after)%list /\
     str_le (TwoHour.timestamp chosen) currentTime = true /\
     forall y, In y before -> str_le (TwoHour.timestamp y) currentTime = false) /\
  ((forall y, In y items -> str_le (TwoHour.timestamp y) currentTime = false) ->
   latestForecast items currentTime = nth_error items 0) /\
  (latestForecast items currentTime = None <-> items = []).
Proof.
  split; [| split].
  - intros (x & Hx & Hp). unfold latestForecast.
    destruct (find_exists
                (fun item => str_le (TwoHour.timestamp item) currentTime)
                items x Hx Hp) as (y & Hy).
    rewrite Hy. cbn [or_else].
    destruct (find_some_first _ _ _ Hy) as (before & after & E & Py & Hb).
    exists before, y, after. repeat split; assumption.
  - intros H. unfold latestForecast.
    rewrite (proj2 (find_none_iff _ items) H). reflexivity.
  - apply latestForecast_none.
Qed.

Lemma latest_is_not_future_when_possible_witness :
  (exists before chosen after,
     latestForecast [Sample.batch_1000; Sample.batch_0800]
                    "2024-05-01T09:00:00+08:00" = Some chosen /\
     [Sample.batch_1000; Sample.batch_0800] = (before ++ chosen :: after)%list /\
     str_le (TwoHour.timestamp chosen) "2024-05-01T09:00:00+08:00" = true /\
     forall y, In y before ->
               str_le (TwoHour.timestamp y) "2024-05-01T09:00:00+08:00" = false) /\
  latestForecast [Sample.batch_1000; Sample.batch_0800]
                 "2024-05-01T07:00:00+08:00" = Some Sample.batch_1000.
Proof.
  split.
  - apply (latest_is_not_future_when_possible
             [Sample.batch_1000; Sample.batch_0800] "2024-05-01T09:00:00+08:00").
    exists Sample.batch_0800. split; [simpl; auto | reflexivity].
  - apply (latest_is_not_future_when_possible
             [Sample.batch_1000; Sample.batch_0800] "2024-05-01T07:00:00+08:00").
    intros y [<- | [<- | []]]; reflexivity.
Defined.

(** X8.  The temperature shown never comes from a station other than S07
    and S43: the reading taken is one of the batch and from one of the two,
    and the text shown is its rounded value followed by the unit; whenever
    a reading of S07 or S43 is in the batch one is taken, so the default is
    shown only when both stations are missing. *)
Theorem temperature_only_from_east_stations (readings : list AirTemp.reading) :
  (forall r, eastTemp readings = Some r ->
             In r readings /\
             (AirTemp.station_id r = "S07" \/ AirTemp.station_id r = "S43") /\
             temperature_of readings =
             Z_toString (Math_round (AirTemp.value r)) ++ "Â°C") /\
  (eastTemp readings = None <->
   forall x, In x readings ->
             AirTemp.station_id x <> "S07" /\ AirTemp.station_id x <> "S43") /\
  (eastTemp readings = None -> temperature_of readings = default_temperature).
Proof.
  split; [| split].
  - intros r E. split; [| split].
    + apply (find_some _ _ E).
    + apply find_some in E. destruct E as [_ E].
      apply orb_true_iff in E. destruct E as [E | E];
        apply String.eqb_eq in E; auto.
    + unfold temperature_of. rewrite E. reflexivity.
  - unfold eastTemp. rewrite find_none_iff. split.
    + intros H x Hx. specialize (H x Hx). apply orb_false_iff in H.
      destruct H as [H7 H43]. split; apply String.eqb_neq; assumption.
    + intros H x Hx. destruct (H x Hx). apply station_eqb_false; assumption.
  - intros E. unfold temperature_of. rewrite E. reflexivity.
Qed.

Lemma temperature_only_from_east_stations_witness :
  In Sample.s07 [Sample.s100; Sample.s07; Sample.s43] /\
  (AirTemp.station_id Sample.s07 = "S07" \/ AirTemp.station_id Sample.s07 = "S43") /\
  temperature_of [Sample.s100; Sample.s07; Sample.s43] =
  Z_toString (Math_round (AirTemp.value Sample.s07)) ++ "Â°C".
Proof.
  apply (temperature_only_from_east_stations [Sample.s100; Sample.s07; Sample.s43]).
  reflexivity.
Defined.

(** ** The forecast step *)

(** The events and the result of [getWeatherForecast], case by case. *)
Lemma getWeatherForecast_events (w : world) (st : state) :
  exists days events,
    getWeatherForecast w st =
    (Returned days, {| dom := dom st; log := log st ++ events |}) /\
    fetched_urls events = [four_day_url] /\
    render_calls events = [] /\
    (List.length days <= 5)%nat /\
    (forall data item,
        four_day_feed w = Response true (Some data) ->
        nth_error (FourDay.items data) 0 = Some item ->
        console_errors events = [] /\
        List.length days = Nat.min 5 (List.length (FourDay.forecasts item)) /\
        forall i, (i < 5)%nat ->
                  nth_error days i =
                  option_map daily_outlook (nth_error (FourDay.forecasts item) i)) /\
    (four_day_unusable (four_day_feed w) = true ->
     days = [] /\ exists e, console_errors events = [e]).
Proof.
  destruct w as [f2 fa f4 t]. cbn [four_day_feed].
  assert (Failure :
            forall e,
              getWeatherForecast
                {| two_hour_feed := f2; air_temperature_feed := fa;
                   four_day_feed := f4; now := t |} st =
              (Returned [],
               {| dom := dom st;
                  log := log st ++
                         [Fetch four_day_url;
                          ConsoleError "Error fetching weather forecast:" e] |}) ->
              four_day_unusable f4 = true ->
              exists days events,
                getWeatherForecast
                  {| two_hour_feed := f2; air_temperature_feed := fa;
                     four_day_feed := f4; now := t |} st =
                (Returned days, {| dom := dom st; log := log st ++ events |}) /\
                fetched_urls events = [four_day_url] /\
                render_calls events = [] /\
                (List.length days <= 5)%nat /\
                (forall data item,
                    f4 = Response true (Some data) ->
                    nth_error (FourDay.items data) 0 = Some item ->
                    console_errors events = [] /\
                    List.length days = Nat.min 5 (List.length (FourDay.forecasts item)) /\
                    forall i, (i < 5)%nat ->
                              nth_error days i =
                              option_map daily_outlook
                                         (nth_error (FourDay.forecasts item) i)) /\
                (four_day_unusable f4 = true ->
                 days = [] /\ exists e, console_errors events = [e])).
  { intros e R U. eexists [], _. split; [exact R |].
    split; [reflexivity |]. split; [reflexivity |]. split; [simpl; lia |].
    split.
    - intros data item -> N. cbn [four_day_unusable] in U.
      destruct (FourDay.items data); simpl in *; discriminate.
    - intros _. split; [reflexivity |]. exists e. reflexivity. }
  destruct f4 as [| [|] [data |]].
  - apply (Failure FetchRejected); [| reflexivity].
    step. cbn. tidy_log. reflexivity.
  - destruct data as [[| item rest]].
    + apply (Failure TypeError); [| reflexivity].
      step. cbn. tidy_log. reflexivity.
    + exists (map daily_outlook (firstn 5 (FourDay.forecasts item))).
      eexists. split.
      { step. cbn. tidy_log. reflexivity. }
      split; [reflexivity |]. split; [reflexivity |]. split.
      { rewrite length_map. apply firstn_le_length. }
      split.
      * intros data' item' [= <-] [= <-]. split; [reflexivity |]. split.
        { rewrite length_map, length_firstn. reflexivity. }
        intros i Hi. rewrite nth_error_map, nth_error_firstn.
        destruct (Nat.ltb_spec i 5); [reflexivity | lia].
      * intros; discriminate.
  - apply (Failure JsonRejected); [| reflexivity].
    step. cbn. tidy_log. reflexivity.
  - apply (Failure (Error "Forecast API unavailable")); [| reflexivity].
    step. cbn. tidy_log. reflexivity.
  - apply (Failure (Error "Forecast API unavailable")); [| reflexivity].
    step. cbn. tidy_log. reflexivity.
Qed.

(** X9.  [getWeatherForecast] never throws and leaves the page alone.  It
    fetches the 4-day address once.  When the feed gives a day list the
    result holds the outlook of each of the first five days, in the order
    of the feed, and nothing is written to the console; when the feed is
    unusable the result is empty and exactly one error is written to the
    console. *)
Theorem forecast_step_capped_and_total (w : world) (st : state) :
  exists days events,
    getWeatherForecast w st =
    (Returned days, {| dom := dom st; log := log st ++ events |}) /\
    fetched_urls events = [four_day_url] /\
    render_calls events = [] /\
    (List.length days <= 5)%nat /\
    (forall data item,
        four_day_feed w = Response true (Some data) ->
        nth_error (FourDay.items data) 0 = Some item ->
        console_errors events = [] /\
        List.length days = Nat.min 5 (List.length (FourDay.forecasts item)) /\
        forall i, (i < 5)%nat ->
                  nth_error days i =
                  option_map daily_outlook (nth_error (FourDay.forecasts item) i)) /\
    (four_day_unusable (four_day_feed w) = true ->
     days = [] /\ exists e, console_errors events = [e]).
Proof.
  exact (getWeatherForecast_events w st).
Qed.

Lemma forecast_step_capped_and_total_witness :
  exists days events,
    getWeatherForecast Sample.only_conditions Sample.start =
    (Returned days,
     {| dom := dom Sample.start; log := log Sample.start ++ events |}) /\
    days = [] /\ exists e, console_errors events = [e].
Proof.
  destruct (forecast_step_capped_and_total Sample.only_conditions Sample.start)
    as (days & events & R & _ & _ & _ & _ & U).
  exists days, events. split; [exact R |]. apply U. reflexivity.
Defined.

(** ** The events of the current-conditions step *)

Lemma getCurrentWeather_events (w : world) (st : state) :
  exists o events,
    getCurrentWeather w st =
    (o, {| dom := dom st; log := log st ++ events |}) /\
    render_calls events = [] /\
    current_step_report w o events.
Proof.
  destruct w as [f2 fa f4 t].
  destruct f2 as [| [|] [data |]];
    try (eexists _, _; split;
         [step; cbn; tidy_log; reflexivity
         | cbn; repeat split; auto; discriminate]).
  destruct (latestForecast (TwoHour.items data) t) as [item |] eqn:L.
  2:{ eexists _, _. split; [step; cbn; rewrite L; cbn; tidy_log; reflexivity |].
      cbn. rewrite L. repeat split; auto; discriminate. }
  destruct fa as [| [|] [td |]].
  - eexists _, _. split; [step; cbn; rewrite L; cbn; tidy_log; reflexivity |].
    cbn. repeat split; auto; discriminate.
  - destruct td as [[| ti rest]].
    + eexists _, _. split; [step; cbn; rewrite L; cbn; tidy_log; reflexivity |].
      cbn. repeat split; auto; discriminate.
    + destruct (pasirRisForecast (TwoHour.forecasts item)) as [af |] eqn:P.
      * eexists _, _. split;
          [step; cbn; rewrite L; cbn; rewrite P; cbn; tidy_log; reflexivity |].
        cbn. rewrite L. repeat split.
        destruct (TwoHour.forecasts item); [discriminate P | reflexivity].
      * eexists _, _. split;
          [step; cbn; rewrite L; cbn; rewrite P; cbn; tidy_log; reflexivity |].
        cbn. rewrite L. apply pasirRisForecast_none in P. rewrite P.
        repeat split; auto; discriminate.
  - eexists _, _. split; [step; cbn; rewrite L; cbn; tidy_log; reflexivity |].
    cbn. repeat split; auto; discriminate.
  - destruct (pasirRisForecast (TwoHour.forecasts item)) as [af |] eqn:P.
    + eexists _, _. split;
        [step; cbn; rewrite L; cbn; rewrite P; cbn; tidy_log; reflexivity |].
      cbn. rewrite L. repeat split.
      destruct (TwoHour.forecasts item); [discriminate P | reflexivity].
    + eexists _, _. split;
        [step; cbn; rewrite L; cbn; rewrite P; cbn; tidy_log; reflexivity |].
      cbn. rewrite L. apply pasirRisForecast_none in P. rewrite P.
      repeat split; auto; discriminate.
  - destruct (pasirRisForecast (TwoHour.forecasts item)) as [af |] eqn:P.
    + eexists _, _. split;
        [step; cbn; rewrite L; cbn; rewrite P; cbn; tidy_log; reflexivity |].
      cbn. rewrite L. repeat split.
      destruct (TwoHour.forecasts item); [discriminate P | reflexivity].
    + eexists _, _. split;
        [step; cbn; rewrite L; cbn; rewrite P; cbn; tidy_log; reflexivity |].
      cbn. rewrite L. apply pasirRisForecast_none in P. rewrite P.
      repeat split; auto; discriminate.
Qed.

(** ** Steps that do not look at the page *)

Lemma state_eta (st : state) : {| dom := dom st; log := log st ++ [] |} = st.
Proof. destruct st. cbn. rewrite app_nil_r. reflexivity. Qed.

Lemma oblivious_ret {A} (a : A) : is_oblivious (ret a).
Proof. exists (Returned a), []. intros st. unfold ret. rewrite state_eta. reflexivity. Qed.

Lemma oblivious_throw {A} (e : exn) : is_oblivious (@throw A e).
Proof. exists (Thrown e), []. intros st. unfold throw. rewrite state_eta. reflexivity. Qed.

Lemma oblivious_emit (e : event) : is_oblivious (emit e).
Proof. exists (Returned tt), [e]. intros st. reflexivity. Qed.

Lemma oblivious_bind {A B} (m : M A) (k : A -> M B) :
  is_oblivious m -> (forall a, is_oblivious (k a)) -> is_oblivious (bind m k).
Proof.
  intros (o & ev & Hm) Hk. destruct o as [a | e].
  - destruct (Hk a) as (o' & ev' & Hka).
    exists o', (ev ++ ev')%list. intros st. unfold bind.
    rewrite Hm, Hka. cbn [dom log]. rewrite app_assoc. reflexivity.
  - exists (Thrown e), ev. intros st. unfold bind. rewrite Hm. reflexivity.
Qed.

Lemma oblivious_try_catch {A} (body : M A) (handler : exn -> M A) :
  is_oblivious body -> (forall e, is_oblivious (handler e)) ->
  is_oblivious (try_catch body handler).
Proof.
  intros (o & ev & Hm) Hk. destruct o as [a | e].
  - exists (Returned a), ev. intros st. unfold try_catch. rewrite Hm. reflexivity.
  - destruct (Hk e) as (o' & ev' & Hke).
    exists o', (ev ++ ev')%list. intros st. unfold try_catch.
    rewrite Hm, Hke. cbn [dom log]. rewrite app_assoc. reflexivity.
Qed.

Lemma oblivious_fetch {A} (url : string) (feed : fetched A) :
  is_oblivious (fetch url feed).
Proof.
  unfold fetch. apply oblivious_bind; [apply oblivious_emit |].
  intros _. destruct feed; [apply oblivious_throw | apply oblivious_ret].
Qed.

Lemma oblivious_json {A} (r : response A) : is_oblivious (json r).
Proof.
  unfold json. destruct (body r); [apply oblivious_ret | apply oblivious_throw].
Qed.

Lemma oblivious_prop {A B} (x : option A) (field : A -> B) :
  is_oblivious (prop x field).
Proof.
  unfold prop. destruct x; [apply oblivious_ret | apply oblivious_throw].
Qed.

Ltac oblivious_steps :=
  repeat first
         [ apply oblivious_ret | apply oblivious_throw | apply oblivious_emit
         | apply oblivious_fetch | apply oblivious_json | apply oblivious_prop
         | apply oblivious_try_catch | apply oblivious_bind
         | progress intros
         | match goal with
           | |- is_oblivious (if ?b then _ else _) => destruct b
           end ].

Lemma getCurrentWeather_oblivious (w : world) : is_oblivious (getCurrentWeather w).
Proof. unfold getCurrentWeather. oblivious_steps. Qed.

Lemma getWeatherForecast_oblivious (w : world) : is_oblivious (getWeatherForecast w).
Proof. unfold getWeatherForecast. oblivious_steps. Qed.

Lemma oblivious_unique {A} (m : M A) (o o' : outcome A) (ev ev' : list event)
      (st : state) :
  oblivious m o ev ->
  m st = (o', {| dom := dom st; log := log st ++ ev' |}) ->
  o = o' /\ ev = ev'.
Proof.
  intros H E. rewrite H in E. injection E as Ho El.
  apply app_inv_head in El. split; assumption.
Qed.

(** The two steps, uniformly in the starting state. *)
Lemma getCurrentWeather_uniform (w : world) :
  exists o events,
    oblivious (getCurrentWeather w) o events /\
    render_calls events = [] /\
    current_step_report w o events.
Proof.
  destruct (getCurrentWeather_oblivious w) as (o & ev & H).
  destruct (getCurrentWeather_events w {| dom := Sample.fresh_page; log := [] |})
    as (o' & ev' & E & C & R).
  destruct (oblivious_unique _ _ _ _ _ _ H E) as [-> ->].
  exists o', ev'. repeat split; assumption.
Qed.

Lemma getWeatherForecast_uniform (w : world) :
  exists days events,
    oblivious (getWeatherForecast w) (Returned days) events /\
    fetched_urls events = [four_day_url] /\
    render_calls events = [] /\
    (four_day_unusable (four_day_feed w) = true ->
     days = [] /\ exists e, console_errors events = [e]) /\
    (forall data item,
        four_day_feed w = Response true (Some data) ->
        nth_error (FourDay.items data) 0 = Some item ->
        console_errors events = [] /\
        days = map daily_outlook (firstn 5 (FourDay.forecasts item))).
Proof.
  destruct (getWeatherForecast_oblivious w) as (o & ev & H).
  destruct (getWeatherForecast_events w {| dom := Sample.fresh_page; log := [] |})
    as (days & ev' & E & F & C & _ & D & U).
  destruct (oblivious_unique _ _ _ _ _ _ H E) as [-> ->].
  exists days, ev'.
  split; [exact H |]. split; [exact F |]. split; [exact C |].
  split; [exact U |].
  intros data item Hf Hi. split; [apply (D data item Hf Hi) |].
  destruct (getWeatherForecast_returns
              w {| dom := Sample.fresh_page; log := [] |})
    as (days' & ev'' & E' & _ & _ & D').
  rewrite E in E'. injection E' as -> _.
  apply (D' data item Hf Hi).
Qed.

(** ** The renderers *)

Lemma show_weather_twice (d1 d2 : Weather.data) (p : page) :
  show_weather d2 (show_weather d1 p) = show_weather d2 p.
Proof.
  unfold show_weather. destruct p as [[t |] [i |] [ds |] wd fc]; reflexivity.
Qed.

Lemma show_weather_forecast_commute
      (d : Weather.data) (days : list Outlook.t) (p : page) :
  show_weather d (show_forecast days p) = show_forecast days (show_weather d p).
Proof.
  unfold show_weather, show_forecast, createForecastContainer.
  destruct p as [t i ds wd fc]. destruct fc, days, wd; reflexivity.
Qed.

Lemma show_forecast_twice (days1 days2 : list Outlook.t) (p : page) :
  days2 <> [] ->
  show_forecast days2 (show_forecast days1 p) = show_forecast days2 p.
Proof.
  intros H. destruct days2 as [| d2 l2]; [contradiction |].
  unfold show_forecast, createForecastContainer.
  destruct p as [t i d wd fc]. cbn.
  destruct fc, days1, wd; reflexivity.
Qed.

Lemma show_forecast_idempotent (days : list Outlook.t) (p : page) :
  show_forecast days (show_forecast days p) = show_forecast days p.
Proof.
  destruct days as [| d l].
  - rewrite !show_forecast_nil. reflexivity.
  - apply show_forecast_twice. discriminate.
Qed.

(** X10.  [renderWeather] writes the temperature, the icon class and the
    description into the elements that exist and creates none: an element
    the page lacks is still lacking afterwards.  It leaves the widget and
    the forecast container alone, and a later call overwrites everything an
    earlier call wrote. *)
Theorem renderWeather_overwrites (data earlier : Weather.data) (st : state) :
  exists p,
    renderWeather data st =
    (Returned tt, {| dom := p; log := log st ++ [CallRenderWeather data] |}) /\
    (forall old, weather_temp (dom st) = Some old ->
                 weather_temp p = Some (Weather.temp data)) /\
    (forall old, weather_icon (dom st) = Some old ->
                 weather_icon p = Some ("fas " ++ Weather.icon data ++ " weather-icon")) /\
    (forall old, weather_desc (dom st) = Some old ->
                 weather_desc p = Some (Weather.desc data)) /\
    (weather_temp (dom st) = None -> weather_temp p = None) /\
    (weather_icon (dom st) = None -> weather_icon p = None) /\
    (weather_desc (dom st) = None -> weather_desc p = None) /\
    weather_widget p = weather_widget (dom st) /\
    weather_forecast p = weather_forecast (dom st) /\
    p = show_weather data (show_weather earlier (dom st)).
Proof.
  exists (show_weather data (dom st)). split; [reflexivity |].
  unfold show_weather at 1 2 3 4 5 6 7 8. cbn.
  repeat split; try (intros old ->; reflexivity); try (intros ->; reflexivity).
  rewrite show_weather_twice. reflexivity.
Qed.

Lemma renderWeather_overwrites_witness :
  exists p,
    renderWeather fallback_weather Sample.start =
    (Returned tt,
     {| dom := p; log := log Sample.start ++ [CallRenderWeather fallback_weather] |}) /\
    weather_temp p = Some "28Â°C" /\
    weather_icon p = Some "fas fa-sun weather-icon" /\
    weather_desc p = Some "Check local weather!".
Proof.
  destruct (renderWeather_overwrites
              fallback_weather (processWeatherData "Cloudy" "31Â°C") Sample.start)
    as (p & R & T & I & D & _).
  exists p. split; [exact R |]. split; [| split].
  - apply (T "--"). reflexivity.
  - apply (I "fas fa-sun weather-icon"). reflexivity.
  - apply (D "Loading..."). reflexivity.
Defined.

(** X11.  [renderForecast] changes nothing when the list is empty (cards
    of an earlier forecast stay) and nothing when the page has neither the
    forecast container nor the widget to put a new one into.  Otherwise
    the container, created inside the widget if need be, holds the cards of
    this list and of no earlier one.  The three current-condition elements
    are never touched. *)
Theorem renderForecast_cases (forecastData earlier : list Outlook.t) (st : state) :
  exists p,
    renderForecast forecastData st =
    (Returned tt,
     {| dom := p; log := log st ++ [CallRenderForecast forecastData] |}) /\
    (forecastData = [] -> p = dom st) /\
    (weather_forecast (dom st) = NoContainer -> weather_widget (dom st) = false ->
     p = dom st) /\
    (forecastData <> [] ->
     weather_forecast (dom st) <> NoContainer \/ weather_widget (dom st) = true ->
     weather_forecast p = Container forecastData /\
     p = show_forecast forecastData (show_forecast earlier (dom st))) /\
    weather_temp p = weather_temp (dom st) /\
    weather_icon p = weather_icon (dom st) /\
    weather_desc p = weather_desc (dom st) /\
    weather_widget p = weather_widget (dom st).
Proof.
  exists (show_forecast forecastData (dom st)). split; [reflexivity |].
  split; [| split; [| split]].
  - intros ->. apply show_forecast_nil.
  - intros Hc Hw. unfold show_forecast, createForecastContainer.
    rewrite Hc, Hw. destruct forecastData; cbn; rewrite Hc; reflexivity.
  - intros Hne Hp. split.
    + destruct forecastData as [| d l]; [contradiction |].
      unfold show_forecast, createForecastContainer.
      destruct (weather_forecast (dom st)) eqn:Hc.
      * destruct Hp as [Hp | Hp]; [contradiction |]. rewrite Hp. reflexivity.
      * cbn. rewrite Hc. reflexivity.
    + rewrite show_forecast_twice by exact Hne. reflexivity.
  - unfold show_forecast, createForecastContainer.
    destruct (weather_forecast (dom st)) eqn:Hc, forecastData,
      (weather_widget (dom st)) eqn:Hw; cbn; rewrite ?Hc, ?Hw; repeat split.
Qed.

Lemma renderForecast_cases_witness :
  exists p,
    renderForecast [daily_outlook Sample.friday] Sample.start =
    (Returned tt,
     {| dom := p;
        log := log Sample.start ++
               [CallRenderForecast [daily_outlook Sample.friday]] |}) /\
    weather_forecast p = Container [daily_outlook Sample.friday].
Proof.
  destruct (renderForecast_cases [daily_outlook Sample.friday] [] Sample.start)
    as (p & R & _ & _ & H & _).
  exists p. split; [exact R |]. apply H.
  - discriminate.
  - right. reflexivity.
Defined.

(** ** Every run, uniformly in the page it starts from *)

Lemma fetched_urls_app (a b : list event) :
  fetched_urls (a ++ b) = (fetched_urls a ++ fetched_urls b)%list.
Proof. apply flat_map_app. Qed.

Lemma console_errors_app (a b : list event) :
  console_errors (a ++ b) = (console_errors a ++ console_errors b)%list.
Proof. apply flat_map_app. Qed.

Lemma render_calls_app (a b : list event) :
  render_calls (a ++ b) = (render_calls a ++ render_calls b)%list.
Proof. apply filter_app. Qed.

Lemma run_uniform (w : world) :
  ((two_hour_unusable (two_hour_feed w) (now w) = true \/
    air_temperature_unusable (air_temperature_feed w) = true) /\
   exists e events,
     (forall st,
         updateWeatherDisplay w st =
         (Returned tt,
          {| dom := fallback_page (dom st); log := log st ++ events |})) /\
     render_calls events = [CallRenderWeather fallback_weather] /\
     console_errors events = [e] /\
     In (ConsoleWarn "Weather service unavailable:" e) events /\
     (fetched_urls events = [two_hour_url] \/
      fetched_urls events = [two_hour_url; air_temperature_url]) /\
     (fetch_fails (two_hour_feed w) = true ->
      fetched_urls events = [two_hour_url])) \/
  ((two_hour_unusable (two_hour_feed w) (now w) = false /\
    air_temperature_unusable (air_temperature_feed w) = false) /\
   exists data days events,
     (forall st,
         updateWeatherDisplay w st =
         (Returned tt,
          {| dom := live_page data days (dom st); log := log st ++ events |})) /\
     render_calls events = [CallRenderWeather data; CallRenderForecast days] /\
     fetched_urls events = [two_hour_url; air_temperature_url; four_day_url] /\
     (four_day_unusable (four_day_feed w) = true -> days = []) /\
     (forall fd item,
         four_day_feed w = Response true (Some fd) ->
         nth_error (FourDay.items fd) 0 = Some item ->
         console_errors events = [] /\
         days = map daily_outlook (firstn 5 (FourDay.forecasts item)))).
Proof.
  destruct (getCurrentWeather_uniform w) as (o & ev1 & H1 & C1 & R1).
  destruct o as [data | e]; cbn [current_step_report] in R1.
  - right. destruct R1 as (F1 & E1 & U2 & Ua).
    split; [split; assumption |].
    destruct (getWeatherForecast_uniform w) as (days & ev2 & H2 & F2 & C2 & D2 & G2).
    exists data, days,
      (ev1 ++ ev2 ++ [CallRenderWeather data; CallRenderForecast days])%list.
    split; [| split; [| split; [| split]]].
    + intros st.
      rewrite (run_when_current_returns w st _ _ data days (H1 st) (H2 _)).
      cbn [dom log]. rewrite <- !app_assoc. reflexivity.
    + rewrite !render_calls_app, C1, C2. reflexivity.
    + rewrite !fetched_urls_app, F1, F2. reflexivity.
    + intros U. apply (D2 U).
    + intros fd item Hf Hi. destruct (G2 fd item Hf Hi) as [G G'].
      split; [| exact G'].
      rewrite !console_errors_app, E1, G. reflexivity.
  - left. destruct R1 as (E1 & F1 & P1 & U1).
    split; [exact U1 |].
    exists e,
      (ev1 ++ [ConsoleWarn "Weather service unavailable:" e;
               CallRenderWeather fallback_weather])%list.
    split; [| split; [| split; [| split; [| split]]]].
    + intros st. rewrite (run_when_current_throws w st _ e (H1 st)).
      cbn [dom log]. rewrite <- app_assoc. reflexivity.
    + rewrite render_calls_app, C1. reflexivity.
    + rewrite console_errors_app, E1. reflexivity.
    + apply in_or_app. right. left. reflexivity.
    + rewrite fetched_urls_app. cbn [fetched_urls flat_map app].
      rewrite app_nil_r. exact F1.
    + intros Hf. rewrite fetched_urls_app. cbn [fetched_urls flat_map app].
      rewrite app_nil_r. apply P1, Hf.
Qed.

(** X12.  A run never throws to its caller, whatever the feeds give and
    whatever the page is.  It calls [renderWeather] exactly once: either
    with the fallback object, after one error was written to the console
    by the step that threw it and the same error was reported once more as
    the driver's warning, or with live data, followed by one call of
    [renderForecast]. *)
Theorem run_always_returns (w : world) (st : state) :
  exists p events,
    updateWeatherDisplay w st =
    (Returned tt, {| dom := p; log := log st ++ events |}) /\
    ((p = show_weather fallback_weather (dom st) /\
      render_calls events = [CallRenderWeather fallback_weather] /\
      exists e, console_errors events = [e] /\
                In (ConsoleWarn "Weather service unavailable:" e) events) \/
     (exists data days,
         p = show_forecast days (show_weather data (dom st)) /\
         render_calls events =
         [CallRenderWeather data; CallRenderForecast days])).
Proof.
  destruct (run_uniform w) as [(_ & e & events & R & C & E & I & _)
                              | (_ & data & days & events & R & C & _)].
  - exists (fallback_page (dom st)), events. split; [apply R |].
    left. split; [reflexivity |]. split; [exact C |]. exists e. split; assumption.
  - exists (live_page data days (dom st)), events. split; [apply R |].
    right. exists data, days. split; [reflexivity | exact C].
Qed.

(** X13.  A run fetches the three addresses in a fixed order and stops at
    the first step that throws: it always fetches the 2-hour forecast
    first, never fetches the air temperature when the 2-hour fetch failed,
    and fetches the 4-day forecast exactly when the current-conditions
    step has returned, that is when its two feeds are usable. *)
Theorem fetches_in_order (w : world) (st : state) :
  exists p events,
    updateWeatherDisplay w st =
    (Returned tt, {| dom := p; log := log st ++ events |}) /\
    (fetched_urls events = [two_hour_url] \/
     fetched_urls events = [two_hour_url; air_temperature_url] \/
     fetched_urls events = [two_hour_url; air_temperature_url; four_day_url]) /\
    (fetch_fails (two_hour_feed w) = true ->
     fetched_urls events = [two_hour_url]) /\
    (fetched_urls events = [two_hour_url; air_temperature_url; four_day_url] <->
     two_hour_unusable (two_hour_feed w) (now w) = false /\
     air_temperature_unusable (air_temperature_feed w) = false).
Proof.
  destruct (run_uniform w) as [(U & e & events & R & _ & _ & _ & F & P)
                              | (U & data & days & events & R & _ & F & _)].
  - exists (fallback_page (dom st)), events. split; [apply R |].
    split; [tauto |]. split; [exact P |]. split.
    + intros E. destruct F as [F | F]; rewrite F in E; discriminate.
    + intros [U2 Ua]. destruct U as [U | U]; congruence.
  - exists (live_page data days (dom st)), events. split; [apply R |].
    split; [tauto |]. split.
    + intros Hf. destruct U as [U _].
      destruct (two_hour_feed w) as [| [|] b]; cbn in Hf, U; try discriminate.
    + split; [intros _; exact U | intros _; exact F].
Qed.

Lemma fetches_in_order_witness :
  exists p events,
    updateWeatherDisplay Sample.all_down Sample.start =
    (Returned tt, {| dom := p; log := log Sample.start ++ events |}) /\
    fetched_urls events = [two_hour_url].
Proof.
  destruct (fetches_in_order Sample.all_down Sample.start)
    as (p & events & R & _ & F & _).
  exists p, events. split; [exact R |]. apply F. reflexivity.
Defined.

Lemma fallback_page_idempotent (p : page) :
  fallback_page (fallback_page p) = fallback_page p.
Proof. apply show_weather_twice. Qed.

Lemma live_page_idempotent (data : Weather.data) (days : list Outlook.t) (p : page) :
  live_page data days (live_page data days p) = live_page data days p.
Proof.
  unfold live_page.
  rewrite show_weather_forecast_commute, show_weather_twice.
  apply show_forecast_idempotent.
Qed.

Lemma live_page_wins (data : Weather.data) (days : list Outlook.t)
      (f : page -> page) (p : page) :
  days <> [] ->
  (f = fallback_page \/ exists data' days', f = live_page data' days') ->
  live_page data days (f p) = live_page data days p.
Proof.
  intros Hne [-> | (data' & days' & ->)]; unfold live_page, fallback_page.
  - rewrite show_weather_twice. reflexivity.
  - rewrite show_weather_forecast_commute, show_weather_twice.
    apply show_forecast_twice, Hne.
Qed.

(** X14.  The page after a run is replaced, not merged.  Running the same
    feeds a second time leaves the page as the first run left it; and a
    run whose feeds are all usable and whose forecast has at least one day
    leaves the same page whatever run came before it. *)
Theorem page_is_replaced (w earlier : world) (st : state) :
  dom (snd (updateWeatherDisplay w (snd (updateWeatherDisplay w st)))) =
  dom (snd (updateWeatherDisplay w st)) /\
  (two_hour_unusable (two_hour_feed w) (now w) = false ->
   air_temperature_unusable (air_temperature_feed w) = false ->
   (exists fd item,
       four_day_feed w = Response true (Some fd) /\
       nth_error (FourDay.items fd) 0 = Some item /\
       FourDay.forecasts item <> []) ->
   dom (snd (updateWeatherDisplay w (snd (updateWeatherDisplay earlier st)))) =
   dom (snd (updateWeatherDisplay w st))).
Proof.
  split.
  - destruct (run_uniform w) as [(_ & e & events & R & _)
                                | (_ & data & days & events & R & _)];
      rewrite !R; cbn [snd dom].
    + apply fallback_page_idempotent.
    + apply live_page_idempotent.
  - intros U2 Ua (fd & item & Hf & Hi & Hne).
    destruct (run_uniform w) as [(U & _) | (_ & data & days & events & R & _ & _ & _ & D)].
    { destruct U; congruence. }
    destruct (D fd item Hf Hi) as [_ ->].
    assert (Hd : map daily_outlook (firstn 5 (FourDay.forecasts item)) <> []).
    { destruct (FourDay.forecasts item); [contradiction | discriminate]. }
    rewrite !R. cbn [snd dom].
    destruct (run_uniform earlier) as [(_ & e' & ev' & R' & _)
                                      | (_ & data' & days' & ev' & R' & _)];
      rewrite R'; cbn [snd dom].
    + apply (live_page_wins _ _ fallback_page); [exact Hd | left; reflexivity].
    + apply (live_page_wins _ _ (live_page data' days')); [exact Hd |].
      right. exists data', days'. reflexivity.
Qed.

Lemma page_is_replaced_witness :
  dom (snd (updateWeatherDisplay
              Sample.east_first
              (snd (updateWeatherDisplay Sample.all_down Sample.start)))) =
  dom (snd (updateWeatherDisplay Sample.east_first Sample.start)).
Proof.
  apply (page_is_replaced Sample.east_first Sample.all_down Sample.start);
    try reflexivity.
  exists Sample.four_day, {| FourDay.forecasts := [Sample.friday; Sample.saturday] |}.
  repeat split. discriminate.
Defined.

(** * Properties of the other interactive features *)

(** ** The weather animation against the weather service *)

Lemma set_if_present_twice (element : option string) (a b : string) :
  set_if_present (set_if_present element a) b = set_if_present element b.
Proof. destruct element; reflexivity. Qed.

Lemma ticks_from_any_page (n i : nat) (p : page) :
  WeatherAnimation.ticks (S n) i p =
  (((i + S n) mod 4)%nat,
   {| weather_temp := weather_temp p;
      weather_icon :=
        set_if_present
          (weather_icon p)
          ("fas " ++ nth ((i + S n) mod 4) WeatherAnimation.weatherIcons "undefined" ++
           " weather-icon");
      weather_desc :=
        set_if_present
          (weather_desc p)
          (nth ((i + S n) mod 4) WeatherAnimation.weatherDescs "undefined");
      weather_widget := weather_widget p;
      weather_forecast := weather_forecast p |}).
Proof.
  revert i p. induction n as [| n IH]; intros i p.
  - cbn [WeatherAnimation.ticks WeatherAnimation.tick].
    change (List.length WeatherAnimation.weatherIcons) with 4%nat.
    reflexivity.
  - change (WeatherAnimation.ticks (S (S n)) i p)
      with (let (j, q) := WeatherAnimation.tick i p in
            WeatherAnimation.ticks (S n) j q).
    unfold WeatherAnimation.tick.
    change (List.length WeatherAnimation.weatherIcons) with 4%nat.
    rewrite IH. cbn [weather_temp weather_icon weather_desc weather_widget
                     weather_forecast].
    rewrite !set_if_present_twice.
    replace (((i + 1) mod 4 + S n) mod 4)%nat with ((i + S (S n)) mod 4)%nat.
    + reflexivity.
    + rewrite Nat.Div0.add_mod_idemp_l. f_equal. lia.
Qed.

(** X15.  The animation of [addWeatherAnimation] writes into the elements
    that the weather service writes into.  On a page where the animation
    was installed, after any number of its ticks, at least one, following
    a rendering of weather data, the icon and the description on the page
    are those of the animation's own table at the index reached, the same
    as if no weather data had been rendered; only the temperature of the
    weather data stays.  The index stays within the table and returns to
    its value after four ticks; the forecast is left alone. *)
Theorem animation_overrides_weather (n i : nat) (data : Weather.data) (p : page) :
  WeatherAnimation.addWeatherAnimation p = Some 0%nat ->
  let j := fst (WeatherAnimation.ticks (S n) i (show_weather data p)) in
  let q := snd (WeatherAnimation.ticks (S n) i (show_weather data p)) in
  j = ((i + S n) mod 4)%nat /\
  (j < 4)%nat /\
  weather_icon q =
  Some ("fas " ++ nth j WeatherAnimation.weatherIcons "undefined" ++ " weather-icon") /\
  weather_desc q =
  set_if_present (weather_desc p)
                 (nth j WeatherAnimation.weatherDescs "undefined") /\
  weather_icon q = weather_icon (snd (WeatherAnimation.ticks (S n) i p)) /\
  weather_desc q = weather_desc (snd (WeatherAnimation.ticks (S n) i p)) /\
  In (nth j WeatherAnimation.weatherIcons "undefined") WeatherAnimation.weatherIcons /\
  In (nth j WeatherAnimation.weatherDescs "undefined") WeatherAnimation.weatherDescs /\
  weather_temp q = weather_temp (show_weather data p) /\
  weather_forecast q = weather_forecast p /\
  fst (WeatherAnimation.ticks (S n + 4) i (show_weather data p)) = j.
Proof.
  intros Installed. cbv zeta. rewrite !ticks_from_any_page.
  replace (S n + 4)%nat with (S (n + 4)) by lia. rewrite ticks_from_any_page.
  cbn [fst snd weather_temp weather_icon weather_desc weather_forecast].
  assert (B : ((i + S n) mod 4 < 4)%nat) by (apply Nat.mod_upper_bound; lia).
  unfold WeatherAnimation.addWeatherAnimation in Installed.
  destruct (weather_icon p) as [old |] eqn:Icon; [| discriminate].
  split; [reflexivity |]. split; [exact B |].
  split.
  { unfold show_weather. cbn [weather_icon]. rewrite Icon. reflexivity. }
  split.
  { unfold show_weather. cbn [weather_desc]. rewrite set_if_present_twice.
    reflexivity. }
  split.
  { unfold show_weather. cbn [weather_icon]. rewrite Icon. reflexivity. }
  split.
  { unfold show_weather. cbn [weather_desc]. rewrite set_if_present_twice.
    reflexivity. }
  split; [apply nth_In; exact B |]. split; [apply nth_In; exact B |].
  split; [reflexivity |]. split; [reflexivity |].
  replace (i + S (n + 4))%nat with (i + S n + 1 * 4)%nat by lia.
  apply Nat.Div0.mod_add.
Qed.

Lemma animation_overrides_weather_witness :
  weather_icon
    (snd (WeatherAnimation.ticks
            3 0 (show_weather (processWeatherData "Thundery Showers" "31Â°C")
                              Sample.fresh_page))) =
  Some "fas fa-wind weather-icon" /\
  weather_desc
    (snd (WeatherAnimation.ticks
            3 0 (show_weather (processWeatherData "Thundery Showers" "31Â°C")
                              Sample.fresh_page))) =
  Some "Breezy but doable!".
Proof.
  destruct (animation_overrides_weather
              2 0 (processWeatherData "Thundery Showers" "31Â°C")
              Sample.fresh_page eq_refl) as (_ & _ & I & D & _).
  split; [exact I | exact D].
Defined.

(** ** [debounce] *)

Section DebounceFacts.

Context {A : Type}.

Lemma executedFunction_sets_one (args : A) (s : Debounce.closure A) :
  Debounce.at_most_one_timer s ->
  exists id,
    Debounce.pending (Debounce.clock (Debounce.executedFunction args s)) =
    [(id, args)] /\
    Debounce.timeout (Debounce.executedFunction args s) = Some id /\
    Debounce.calls (Debounce.executedFunction args s) = Debounce.calls s.
Proof.
  unfold Debounce.at_most_one_timer.
  intros [E | (id & a & E & T)]; unfold Debounce.executedFunction.
  - exists (Debounce.next_id (Debounce.clock s)).
    destruct (Debounce.timeout s); cbn; rewrite E; repeat split.
  - exists (Debounce.next_id (Debounce.clock s)).
    rewrite T. cbn. rewrite E. cbn. rewrite Nat.eqb_refl. repeat split.
Qed.

Lemma fire_keeps_at_most_one (id : nat) (s : Debounce.closure A) :
  Debounce.at_most_one_timer s ->
  Debounce.at_most_one_timer (Debounce.fire id s) /\
  (List.length (Debounce.calls (Debounce.fire id s)) +
   List.length (Debounce.pending (Debounce.clock (Debounce.fire id s))) =
   List.length (Debounce.calls s) +
   List.length (Debounce.pending (Debounce.clock s)))%nat.
Proof.
  intros H. pose proof H as [E | (id0 & a & E & T)]; unfold Debounce.fire.
  - rewrite E. cbn [find]. split; [exact H | rewrite ?E; reflexivity].
  - rewrite E. cbn [find fst]. destruct (Nat.eqb id0 id) eqn:Q.
    + rewrite T. cbn. rewrite ?Q. cbn. rewrite ?Nat.eqb_refl. cbn.
      split; [left; reflexivity |].
      rewrite length_app. cbn. lia.
    + split; [exact H | rewrite ?E; reflexivity].
Qed.

Lemma fire_the_pending_timer (id : nat) (args : A) (s : Debounce.closure A) :
  Debounce.pending (Debounce.clock s) = [(id, args)] ->
  Debounce.timeout s = Some id ->
  Debounce.fire id s =
  {| Debounce.timeout := Some id;
     Debounce.clock :=
       {| Debounce.next_id := Debounce.next_id (Debounce.clock s);
          Debounce.pending := [] |};
     Debounce.calls := Debounce.calls s ++ [args] |}.
Proof.
  intros E T. unfold Debounce.fire, Debounce.clearTimeout, Debounce.drop_timer.
  rewrite E, T. cbn [find filter fst Debounce.pending Debounce.next_id].
  rewrite Nat.eqb_refl. cbn [negb filter]. reflexivity.
Qed.

Lemma act_keeps_at_most_one (a : Debounce.action A) (s : Debounce.closure A) :
  Debounce.at_most_one_timer s -> Debounce.at_most_one_timer (Debounce.act s a).
Proof.
  intros H. destruct a as [args | id]; cbn [Debounce.act].
  - destruct (executedFunction_sets_one args s H) as (id & E & T & _).
    right. exists id, args. split; assumption.
  - apply fire_keeps_at_most_one, H.
Qed.

Lemma run_keeps_at_most_one (actions : list (Debounce.action A))
      (s : Debounce.closure A) :
  Debounce.at_most_one_timer s -> Debounce.at_most_one_timer (Debounce.run actions s).
Proof.
  revert s. induction actions as [| a l IH]; intros s H; [exact H |].
  apply IH, act_keeps_at_most_one, H.
Qed.

Lemma run_bounds_calls (actions : list (Debounce.action A))
      (s : Debounce.closure A) :
  Debounce.at_most_one_timer s ->
  (List.length (Debounce.calls (Debounce.run actions s)) +
   List.length (Debounce.pending (Debounce.clock (Debounce.run actions s))) <=
   List.length (Debounce.calls s) +
   List.length (Debounce.pending (Debounce.clock s)) + Debounce.count_calls actions)%nat.
Proof.
  revert s. induction actions as [| a l IH]; intros s H.
  - cbn. lia.
  - change (Debounce.run (a :: l) s) with (Debounce.run l (Debounce.act s a)).
    pose proof (IH _ (act_keeps_at_most_one a s H)) as B.
    destruct a as [args | id]; cbn [Debounce.act] in *.
    + destruct (executedFunction_sets_one args s H) as (id & E & _ & C).
      rewrite E, C in B. unfold Debounce.count_calls in *. cbn in *. lia.
    + destruct (fire_keeps_at_most_one id s H) as [_ F].
      unfold Debounce.count_calls in *. cbn in *. lia.
Qed.

Lemma burst_leaves_last (before : list A) (last : A) (s : Debounce.closure A) :
  Debounce.at_most_one_timer s ->
  exists id,
    Debounce.pending
      (Debounce.clock (Debounce.run (map Debounce.Call (before ++ [last])) s)) =
    [(id, last)] /\
    Debounce.timeout (Debounce.run (map Debounce.Call (before ++ [last])) s) =
    Some id /\
    Debounce.calls (Debounce.run (map Debounce.Call (before ++ [last])) s) =
    Debounce.calls s.
Proof.
  revert s. induction before as [| a l IH]; intros s H.
  - cbn. apply executedFunction_sets_one, H.
  - cbn [app map]. 
    change (Debounce.run (Debounce.Call a :: map Debounce.Call (l ++ [last])) s)
      with (Debounce.run (map Debounce.Call (l ++ [last]))
                         (Debounce.executedFunction a s)).
    destruct (executedFunction_sets_one a s H) as (id0 & E & T & C).
    destruct (IH (Debounce.executedFunction a s)) as (id & E' & T' & C').
    { right. exists id0, a. split; assumption. }
    exists id. rewrite E', T', C', C. repeat split.
Qed.

(** X16.  The debounced function keeps at most one timer pending, the one
    its [timeout] variable names.  After any history of calls and timer
    firings, a burst of calls with no firing in between leaves exactly one
    timer; when it fires, [func] is called once, with the arguments of the
    last call of the burst, and no timer is left.  [func] is never called
    more often than the debounced function was. *)
Theorem debounce_runs_last_call_once
        (history : list (Debounce.action A)) (before : list A) (last : A) :
  let s := Debounce.run history Debounce.initial in
  let s' := Debounce.run (map Debounce.Call (before ++ [last])) s in
  Debounce.at_most_one_timer s /\
  (List.length (Debounce.calls s) <= Debounce.count_calls history)%nat /\
  exists id,
    Debounce.pending (Debounce.clock s') = [(id, last)] /\
    Debounce.timeout s' = Some id /\
    Debounce.calls s' = Debounce.calls s /\
    Debounce.calls (Debounce.fire id s') = (Debounce.calls s ++ [last])%list /\
    Debounce.pending (Debounce.clock (Debounce.fire id s')) = [].
Proof.
  cbv zeta.
  assert (I0 : Debounce.at_most_one_timer (@Debounce.initial A)) by (left; reflexivity).
  pose proof (run_keeps_at_most_one history _ I0) as I.
  split; [exact I |]. split.
  { pose proof (run_bounds_calls history _ I0) as B. cbn in B. lia. }
  destruct (burst_leaves_last before last _ I) as (id & E & T & C).
  exists id. split; [exact E |]. split; [exact T |]. split; [exact C |].
  rewrite (fire_the_pending_timer id last _ E T), C. split; reflexivity.
Qed.

End DebounceFacts.

(** ** The mobile menu *)

Lemma contains_remove (token : string) (l : list string) :
  Nav.contains token (Nav.remove token l) = false.
Proof.
  unfold Nav.contains, Nav.remove.
  induction l as [| x l IH]; [reflexivity |].
  cbn [filter]. destruct (String.eqb x token) eqn:E; cbn [negb].
  - exact IH.
  - cbn [existsb]. rewrite String.eqb_sym, E, IH. reflexivity.
Qed.

Lemma contains_toggle (token : string) (l : list string) :
  Nav.contains token (Nav.toggle token l) = negb (Nav.contains token l).
Proof.
  unfold Nav.toggle. destruct (Nav.contains token l) eqn:E.
  - apply contains_remove.
  - unfold Nav.contains in *. rewrite existsb_app, E. cbn [existsb orb].
    rewrite String.eqb_refl. reflexivity.
Qed.

Lemma toggle_flips (m : Nav.menu) :
  Nav.is_open (Nav.toggleMobileMenu m) = negb (Nav.is_open m).
Proof.
  unfold Nav.is_open, Nav.toggleMobileMenu. cbn [Nav.navMenu].
  apply contains_toggle.
Qed.

Lemma close_closes (m : Nav.menu) : Nav.is_open (Nav.closeMobileMenu m) = false.
Proof.
  unfold Nav.is_open, Nav.closeMobileMenu. cbn [Nav.navMenu].
  apply contains_remove.
Qed.














Lemma dead_toggle_stays_dead (b : Nav.bound) (e : Nav.user_event) :
  Nav.navigations b = 2%nat ->
  Nav.is_open (Nav.elements b) = false ->
  Nav.navigations (Nav.handle b e) = 2%nat /\
  Nav.is_open (Nav.elements (Nav.handle b e)) = false.
Proof.
  intros N C. destruct e; cbn [Nav.handle]; rewrite ?N;
    cbn [Nav.navigations Nav.elements Nav.repeat_times].
  - split; [reflexivity |]. rewrite !toggle_flips, C. reflexivity.
  - split; [reflexivity | apply close_closes].
  - split; [reflexivity | exact C].
  - split; [reflexivity | apply close_closes].
  - unfold Nav.is_open in C. rewrite C. split; [exact N | exact C].
  - split; [reflexivity | exact C].
Qed.

Lemma dead_toggle_forever (events : list Nav.user_event) (b : Nav.bound) :
  Nav.navigations b = 2%nat ->
  Nav.is_open (Nav.elements b) = false ->
  Nav.navigations (Nav.handle_all events b) = 2%nat /\
  Nav.is_open (Nav.elements (Nav.handle_all events b)) = false.
Proof.
  revert b. induction events as [| e l IH]; intros b N C; [split; assumption |].
  destruct (dead_toggle_stays_dead b e N C) as [N' C'].
  apply (IH _ N' C').
Qed.

Lemma one_or_dead (events : list Nav.user_event) (b : Nav.bound) :
  Nav.navigations b = 1%nat \/
  (Nav.navigations b = 2%nat /\ Nav.is_open (Nav.elements b) = false) ->
  Nav.navigations (Nav.handle_all events b) = 1%nat \/
  (Nav.navigations (Nav.handle_all events b) = 2%nat /\
   Nav.is_open (Nav.elements (Nav.handle_all events b)) = false).
Proof.
  revert b. induction events as [| e l IH]; intros b H; [exact H |].
  apply IH. destruct H as [N | [N C]].
  - destruct e; cbn [Nav.handle Nav.navigations]; auto.
    destruct (Nav.contains "active" (Nav.navMenu (Nav.elements b))); auto.
    right. cbn [Nav.navigations Nav.elements].
    split; [rewrite N; reflexivity | apply close_closes].
  - right. apply dead_toggle_stays_dead; assumption.
Qed.

(** X18.  The Escape key breaks the toggle button.  With the one
    [Navigation] of the application, a click on the button opens or closes
    the menu.  When Escape is pressed while the menu is open, the keydown
    listener builds a second [Navigation], whose constructor binds a second
    click listener to the same button, and closes the menu; from then on a
    click on the button toggles twice, so that no sequence of clicks and
    key presses ever opens the menu again, and no third [Navigation] is
    built. *)
Theorem escape_breaks_the_toggle (m : Nav.menu) (before : list Nav.user_event) :
  let b := Nav.handle_all before {| Nav.elements := m; Nav.navigations := 1 |} in
  (Nav.navigations b = 1%nat \/
   (Nav.navigations b = 2%nat /\ Nav.is_open (Nav.elements b) = false)) /\
  (Nav.navigations b = 1%nat ->
   Nav.is_open (Nav.elements (Nav.handle b Nav.ClickToggle)) =
   negb (Nav.is_open (Nav.elements b))) /\
  (Nav.is_open (Nav.elements b) = true ->
   Nav.navigations (Nav.handle b Nav.PressEscape) = 2%nat /\
   forall after,
     Nav.is_open
       (Nav.elements (Nav.handle_all after (Nav.handle b Nav.PressEscape))) = false /\
     Nav.navigations (Nav.handle_all after (Nav.handle b Nav.PressEscape)) = 2%nat).
Proof.
  cbv zeta.
  set (b := Nav.handle_all before {| Nav.elements := m; Nav.navigations := 1 |}).
  assert (I : Nav.navigations b = 1%nat \/
              (Nav.navigations b = 2%nat /\ Nav.is_open (Nav.elements b) = false)).
  { apply one_or_dead. left. reflexivity. }
  split; [exact I |]. split.
  - intros N. cbn [Nav.handle Nav.elements]. rewrite N.
    cbn [Nav.repeat_times]. apply toggle_flips.
  - intros O. destruct I as [N | [_ C]]; [| congruence].
    assert (E : Nav.handle b Nav.PressEscape =
                {| Nav.elements := Nav.closeMobileMenu (Nav.elements b);
                   Nav.navigations := 2 |}).
    { cbn [Nav.handle]. unfold Nav.is_open in O. rewrite O, N. reflexivity. }
    rewrite E. split; [reflexivity |].
    intros after.
    destruct (dead_toggle_forever
                after
                {| Nav.elements := Nav.closeMobileMenu (Nav.elements b);
                   Nav.navigations := 2 |} eq_refl (close_closes _)) as [N' C'].
    split; assumption.
Qed.

Lemma escape_breaks_the_toggle_witness :
  Nav.is_open
    (Nav.elements
       (Nav.handle_all
          [Nav.ClickToggle]
          (Nav.handle
             (Nav.handle_all
                [Nav.ClickToggle]
                {| Nav.elements :=
                     {| Nav.navMenu := ["nav-menu"];
                        Nav.navToggle := ["nav-toggle"];
                        Nav.aria_expanded := Some "false";
                        Nav.body_overflow := "" |};
                   Nav.navigations := 1 |})
             Nav.PressEscape))) = false.
Proof.
  destruct (escape_breaks_the_toggle
              {| Nav.navMenu := ["nav-menu"];
                 Nav.navToggle := ["nav-toggle"];
                 Nav.aria_expanded := Some "false";
                 Nav.body_overflow := "" |}
              [Nav.ClickToggle]) as (_ & _ & H).
  destruct (H eq_refl) as [_ D].
  apply (D [Nav.ClickToggle]).
Defined.

(** ** The validation of the address *)

Lemma plus_class_iff (s : Form.js_string) (k : Form.js_string -> bool) :
  Form.plus_class s k = true <->
  exists a rest,
    a <> [] /\ s = (a ++ rest)%list /\
    forallb Form.not_space_nor_at a = true /\ k rest = true.
Proof.
  induction s as [| c s IH]; cbn [Form.plus_class].
  - split; [discriminate |].
    intros (a & rest & Ha & E & _). destruct a; [contradiction | discriminate].
  - rewrite andb_true_iff, orb_true_iff, IH. split.
    + intros [Hc [Hk | (a & rest & Ha & -> & Fa & Hk)]].
      * exists [c], s. cbn [forallb app]. rewrite Hc.
        repeat split; [discriminate | exact Hk].
      * exists (c :: a), rest. cbn [forallb app]. rewrite Hc, Fa.
        repeat split; [discriminate | exact Hk].
    + intros (a & rest & Ha & E & Fa & Hk).
      destruct a as [| d a]; [contradiction |].
      cbn [forallb app] in E, Fa. injection E as <- ->.
      apply andb_true_iff in Fa. destruct Fa as [Hc Fa].
      split; [exact Hc |].
      destruct a as [| e a]; [left; exact Hk |].
      right. exists (e :: a), rest. repeat split; [discriminate | exact Fa | exact Hk].
Qed.

Lemma literal_iff (c : N) (s : Form.js_string) (k : Form.js_string -> bool) :
  Form.literal c s k = true <-> exists rest, s = c :: rest /\ k rest = true.
Proof.
  destruct s as [| d s]; cbn [Form.literal].
  - split; [discriminate | intros (rest & E & _); discriminate].
  - rewrite andb_true_iff, N.eqb_eq. split.
    + intros [-> Hk]. exists s. split; [reflexivity | exact Hk].
    + intros (rest & [= -> ->] & Hk). split; [reflexivity | exact Hk].
Qed.

Lemma end_of_input_iff (s : Form.js_string) : Form.end_of_input s = true <-> s = [].
Proof. destruct s; cbn; split; congruence. Qed.

Lemma class_units (a : Form.js_string) (u : N) :
  forallb Form.not_space_nor_at a = true -> In u a ->
  Form.is_white_space u = false /\ u <> Form.at_sign.
Proof.
  intros F H. rewrite forallb_forall in F. specialize (F u H).
  unfold Form.not_space_nor_at in F. apply andb_true_iff in F.
  destruct F as [F1 F2]. apply negb_true_iff in F1, F2.
  split; [exact F1 |]. apply N.eqb_neq, F2.
Qed.

Lemma count_at_class (a : Form.js_string) :
  forallb Form.not_space_nor_at a = true ->
  count_occ N.eq_dec a Form.at_sign = 0%nat.
Proof.
  intros F. apply count_occ_not_In. intros H.
  destruct (class_units a _ F H) as [_ N]. contradiction.
Qed.

Lemma emailRegex_shape (email : Form.js_string) :
  Form.emailRegex_test email = true <->
  exists a b c,
    email = (a ++ Form.at_sign :: b ++ Form.full_stop :: c)%list /\
    a <> [] /\ b <> [] /\ c <> [] /\
    forallb Form.not_space_nor_at a = true /\
    forallb Form.not_space_nor_at b = true /\
    forallb Form.not_space_nor_at c = true.
Proof.
  unfold Form.emailRegex_test. rewrite plus_class_iff. split.
  - intros (a & r1 & Ha & E1 & Fa & K1).
    apply literal_iff in K1. destruct K1 as (r2 & -> & K2).
    apply plus_class_iff in K2. destruct K2 as (b & r3 & Hb & -> & Fb & K3).
    apply literal_iff in K3. destruct K3 as (r4 & -> & K4).
    apply plus_class_iff in K4. destruct K4 as (c & r5 & Hc & -> & Fc & K5).
    apply end_of_input_iff in K5. subst r5. rewrite app_nil_r in E1.
    exists a, b, c. repeat split; assumption.
  - intros (a & b & c & E & Ha & Hb & Hc & Fa & Fb & Fc).
    exists a, (Form.at_sign :: b ++ Form.full_stop :: c)%list.
    split; [exact Ha |]. split; [exact E |]. split; [exact Fa |].
    apply literal_iff. exists (b ++ Form.full_stop :: c)%list.
    split; [reflexivity |].
    apply plus_class_iff. exists b, (Form.full_stop :: c)%list.
    split; [exact Hb |]. split; [reflexivity |]. split; [exact Fb |].
    apply literal_iff. exists c. split; [reflexivity |].
    apply plus_class_iff. exists c, []. rewrite app_nil_r.
    repeat split; assumption.
Qed.

(** X19.  The regular expression of [validateEmail] accepts exactly the
    texts of the shape local@domain.tail where the three parts are not
    empty and hold neither "@" nor a white-space character of JavaScript
    (the ASCII blanks and the blanks and line ends beyond ASCII, such as
    U+00A0, alike); the domain and the tail may hold further dots.  An
    accepted text therefore holds exactly one "@" and no white space. *)
Theorem accepted_addresses (email : Form.js_string) :
  (Form.emailRegex_test email = true <->
   exists a b c,
     email = (a ++ Form.at_sign :: b ++ Form.full_stop :: c)%list /\
     a <> [] /\ b <> [] /\ c <> [] /\
     forallb Form.not_space_nor_at a = true /\
     forallb Form.not_space_nor_at b = true /\
     forallb Form.not_space_nor_at c = true) /\
  (Form.emailRegex_test email = true ->
   count_occ N.eq_dec email Form.at_sign = 1%nat /\
   forall u, In u email -> Form.is_white_space u = false).
Proof.
  split; [apply emailRegex_shape |].
  intros H. apply emailRegex_shape in H.
  destruct H as (a & b & c & E & _ & _ & _ & Fa & Fb & Fc).
  rewrite E. split.
  - rewrite count_occ_app. cbn [count_occ].
    destruct (N.eq_dec Form.at_sign Form.at_sign) as [_ | N]; [| contradiction].
    rewrite count_occ_app. cbn [count_occ].
    destruct (N.eq_dec Form.full_stop Form.at_sign) as [D | _]; [discriminate |].
    rewrite !count_at_class by assumption. reflexivity.
  - intros u Hin. apply in_app_or in Hin. destruct Hin as [Hin | [<- | Hin]].
    + apply (class_units a u Fa Hin).
    + reflexivity.
    + apply in_app_or in Hin. destruct Hin as [Hin | [<- | Hin]].
      * apply (class_units b u Fb Hin).
      * reflexivity.
      * apply (class_units c u Fc Hin).
Qed.

(** An address is accepted, and the same address with a no-break space
    (U+00A0) in its local part is not. *)
Lemma accepted_addresses_witness :
  (count_occ N.eq_dec (Form.of_ascii "crew@shoresquad.sg") Form.at_sign = 1%nat /\
   forall u, In u (Form.of_ascii "crew@shoresquad.sg") ->
             Form.is_white_space u = false) /\
  Form.emailRegex_test
    (Form.of_ascii "a" ++ 160%N :: Form.of_ascii "b@c.d")%list = false.
Proof.
  split.
  - apply (accepted_addresses (Form.of_ascii "crew@shoresquad.sg")). reflexivity.
  - destruct (Form.emailRegex_test
                (Form.of_ascii "a" ++ 160%N :: Form.of_ascii "b@c.d")%list) eqn:E;
      [| reflexivity].
    destruct (accepted_addresses
                (Form.of_ascii "a" ++ 160%N :: Form.of_ascii "b@c.d")%list)
      as [_ H].
    destruct (H E) as [_ W].
    specialize (W 160%N (or_intror (or_introl eq_refl))). discriminate W.
Defined.

Lemma trimStart_nil_iff (s : Form.js_string) :
  Form.trimStart s = [] <-> forall u, In u s -> Form.is_white_space u = true.
Proof.
  induction s as [| c s IH]; cbn [Form.trimStart].
  - split; [intros _ u [] | reflexivity].
  - destruct (Form.is_white_space c) eqn:E.
    + rewrite IH. split.
      * intros H u [<- | Hu]; [exact E | apply H, Hu].
      * intros H u Hu. apply H. right. exact Hu.
    + split; [discriminate |].
      intros H. rewrite (H c (or_introl eq_refl)) in E. discriminate.
Qed.

Lemma trimStart_head (s : Form.js_string) (u : N) (rest : Form.js_string) :
  Form.trimStart s = u :: rest -> Form.is_white_space u = false.
Proof.
  induction s as [| c s IH]; cbn [Form.trimStart]; [discriminate |].
  destruct (Form.is_white_space c) eqn:E; [exact IH |].
  intros [= <- _]. exact E.
Qed.

Lemma trimEnd_nil_iff (s : Form.js_string) :
  Form.trimEnd s = [] <-> forall u, In u s -> Form.is_white_space u = true.
Proof.
  unfold Form.trimEnd. split.
  - intros H u Hu.
    assert (R : Form.trimStart (rev s) = []).
    { rewrite <- (rev_involutive (Form.trimStart (rev s))), H. reflexivity. }
    apply (proj1 (trimStart_nil_iff (rev s)) R). apply in_rev in Hu. exact Hu.
  - intros H.
    rewrite (proj2 (trimStart_nil_iff (rev s))); [reflexivity |].
    intros u Hu. apply H. apply in_rev. exact Hu.
Qed.

(** The trimmed value is empty exactly when the value holds nothing but
    white space. *)
Lemma trim_nil_iff (s : Form.js_string) :
  Form.trim s = [] <-> forall u, In u s -> Form.is_white_space u = true.
Proof.
  unfold Form.trim. rewrite trimEnd_nil_iff. split.
  - intros H. apply trimStart_nil_iff.
    destruct (Form.trimStart s) as [| u rest] eqn:E; [reflexivity |].
    pose proof (trimStart_head s u rest E) as N.
    rewrite (H u (or_introl eq_refl)) in N. discriminate.
  - intros H u Hu.
    rewrite (proj2 (trimStart_nil_iff s) H) in Hu. contradiction.
Qed.

(** X20.  [validateEmail] never changes the value typed.  It returns true
    exactly when the trimmed value passes the regular expression, and
    exactly then the error text is left empty (with the grey border);
    otherwise the error text is one of the two messages, with the coral
    border and [aria-live] set to polite.  "Email is required" is shown
    exactly when the value holds nothing but white space of JavaScript
    (the empty value, ASCII blanks, U+00A0 and the like). *)
Theorem validateEmail_reports (f : Form.fields) :
  let ok := fst (Form.validateEmail f) in
  let f' := snd (Form.validateEmail f) in
  Form.value f' = Form.value f /\
  (ok = true <-> Form.emailRegex_test (Form.trim (Form.value f)) = true) /\
  (ok = true <-> Form.errorText f' = "") /\
  (ok = true ->
   Form.borderColor f' = "var(--gray-300)" /\
   Form.aria_live f' = Form.aria_live f) /\
  (ok = false ->
   Form.borderColor f' = "var(--coral-accent)" /\
   Form.aria_live f' = Some "polite" /\
   (Form.errorText f' = "Email is required" \/
    Form.errorText f' = "Please enter a valid email address") /\
   (Form.errorText f' = "Email is required" <->
    Form.trim (Form.value f) = [])) /\
  (Form.errorText f' = "Email is required" <->
   forall u, In u (Form.value f) -> Form.is_white_space u = true).
Proof.
  cbv zeta. unfold Form.validateEmail.
  pose proof (trim_nil_iff (Form.value f)) as B.
  destruct (Form.trim (Form.value f)) as [| u rest] eqn:E.
  - cbn [Form.is_empty_string fst snd Form.showError Form.value Form.errorText
                              Form.borderColor Form.aria_live].
    split; [reflexivity |].
    split; [split; [discriminate | intros R; vm_compute in R; discriminate R] |].
    split; [split; discriminate |].
    split; [discriminate |].
    split.
    + intros _. split; [reflexivity |]. split; [reflexivity |].
      split; [left; reflexivity |]. split; reflexivity.
    + split; [intros _; apply B; reflexivity | reflexivity].
  - cbn [Form.is_empty_string].
    assert (NB : ~ (forall v, In v (Form.value f) -> Form.is_white_space v = true)).
    { intros H. apply B in H. discriminate H. }
    destruct (Form.emailRegex_test (u :: rest)) eqn:R;
      cbn [negb fst snd Form.showError Form.clearError Form.value
                Form.errorText Form.borderColor Form.aria_live].
    + split; [reflexivity |].
      split; [split; reflexivity |].
      split; [split; reflexivity |].
      split; [intros _; split; reflexivity |].
      split; [discriminate |].
      split; [discriminate | intros H; contradiction].
    + split; [reflexivity |].
      split; [split; discriminate |].
      split; [split; discriminate |].
      split; [discriminate |].
      split.
      * intros _. split; [reflexivity |]. split; [reflexivity |].
        split; [right; reflexivity |].
        split; discriminate.
      * split; [discriminate | intros H; contradiction].
Qed.

(** A padded address passes; a value of one no-break space (U+00A0) is
    reported as missing. *)
Lemma validateEmail_reports_witness :
  fst (Form.validateEmail
         {| Form.value := Form.of_ascii "  crew@shoresquad.sg ";
            Form.borderColor := "";
            Form.errorText := "Email is required";
            Form.aria_live := None |}) = true /\
  Form.errorText
    (snd (Form.validateEmail
            {| Form.value := [160%N];
               Form.borderColor := "";
               Form.errorText := "";
               Form.aria_live := None |})) = "Email is required".
Proof.
  split.
  - apply (validateEmail_reports
             {| Form.value := Form.of_ascii "  crew@shoresquad.sg ";
                Form.borderColor := "";
                Form.errorText := "Email is required";
                Form.aria_live := None |}).
    reflexivity.
  - apply (validateEmail_reports
             {| Form.value := [160%N];
                Form.borderColor := "";
                Form.errorText := "";
                Form.aria_live := None |}).
    intros u [<- | []]. reflexivity.
Defined.

(** ** The viewport test *)

Lemma isInViewport_iff (r : Viewport.rect) (w : Viewport.window) :
  Viewport.isInViewport r w = true <->
  (0 <= Viewport.top r)%Q /\ (0 <= Viewport.left r)%Q /\
  (Viewport.bottom r <=
   Viewport.or_number (Viewport.innerHeight w) (Viewport.clientHeight w))%Q /\
  (Viewport.right r <=
   Viewport.or_number (Viewport.innerWidth w) (Viewport.clientWidth w))%Q.
Proof.
  unfold Viewport.isInViewport, num_le.
  rewrite !andb_true_iff, !Qle_bool_iff. tauto.
Qed.

(** X21.  [isInViewport] holds only of an element that lies in the window
    with all of its box: such an element is no taller and no wider than
    the window, so an element larger than the window is never in the
    viewport, however it is scrolled; and every box inside a box that is
    in the viewport is in the viewport.  The window's inner size is used
    unless it is zero; then the size of the document element is. *)
Theorem viewport_needs_the_whole_box (r inner : Viewport.rect) (w : Viewport.window) :
  let height :=
    Viewport.or_number (Viewport.innerHeight w) (Viewport.clientHeight w) in
  let width :=
    Viewport.or_number (Viewport.innerWidth w) (Viewport.clientWidth w) in
  (Viewport.isInViewport r w = true ->
   (Viewport.bottom r - Viewport.top r <= height)%Q /\
   (Viewport.right r - Viewport.left r <= width)%Q) /\
  ((height < Viewport.bottom r - Viewport.top r)%Q \/
   (width < Viewport.right r - Viewport.left r)%Q ->
   Viewport.isInViewport r w = false) /\
  (Viewport.isInViewport r w = true ->
   (Viewport.top r <= Viewport.top inner)%Q ->
   (Viewport.left r <= Viewport.left inner)%Q ->
   (Viewport.bottom inner <= Viewport.bottom r)%Q ->
   (Viewport.right inner <= Viewport.right r)%Q ->
   Viewport.isInViewport inner w = true) /\
  (~ (Viewport.innerHeight w == 0)%Q -> height = Viewport.innerHeight w) /\
  ((Viewport.innerHeight w == 0)%Q -> height = Viewport.clientHeight w).
Proof.
  cbv zeta. split; [| split; [| split; [| split]]].
  - intros H. apply isInViewport_iff in H. destruct H as (T & L & B & R).
    split; lra.
  - intros H. destruct (Viewport.isInViewport r w) eqn:E; [| reflexivity].
    apply isInViewport_iff in E. destruct E as (T & L & B & R).
    destruct H; lra.
  - intros H Ht Hl Hb Hr. apply isInViewport_iff in H.
    destruct H as (T & L & B & R). apply isInViewport_iff.
    repeat split; lra.
  - intros N. unfold Viewport.or_number.
    destruct (Qeq_bool (Viewport.innerHeight w) 0) eqn:E; [| reflexivity].
    apply Qeq_bool_iff in E. contradiction.
  - intros Z. unfold Viewport.or_number.
    apply Qeq_bool_iff in Z. rewrite Z. reflexivity.
Qed.

Lemma viewport_needs_the_whole_box_witness :
  Viewport.isInViewport
    {| Viewport.top := 0; Viewport.left := 0;
       Viewport.bottom := 900; Viewport.right := 400 |}
    {| Viewport.innerHeight := 800; Viewport.innerWidth := 1280;
       Viewport.clientHeight := 800; Viewport.clientWidth := 1265 |} = false.
Proof.
  apply (viewport_needs_the_whole_box
           {| Viewport.top := 0; Viewport.left := 0;
              Viewport.bottom := 900; Viewport.right := 400 |}
           {| Viewport.top := 0; Viewport.left := 0;
              Viewport.bottom := 900; Viewport.right := 400 |}
           {| Viewport.innerHeight := 800; Viewport.innerWidth := 1280;
              Viewport.clientHeight := 800; Viewport.clientWidth := 1265 |}).
  left. reflexivity.
Defined.

(** ** The scroll listener of [optimizeScrollPerformance] *)

Lemma scroll_act_keeps (s : ScrollFrames.closure) (a : ScrollFrames.action) :
  ScrollFrames.one_frame_at_most s ->
  ScrollFrames.one_frame_at_most (ScrollFrames.act s a) /\
  (ScrollFrames.updates (ScrollFrames.act s a) +
   ScrollFrames.requested (ScrollFrames.act s a) <=
   ScrollFrames.updates s + ScrollFrames.requested s +
   ScrollFrames.count_scrolls [a])%nat.
Proof.
  unfold ScrollFrames.one_frame_at_most. destruct s as [t r u].
  cbn [ScrollFrames.requested ScrollFrames.ticking].
  intros [[-> ->] | [-> ->]]; destruct a; cbn; split; auto; lia.
Qed.

Lemma scroll_run_keeps (actions : list ScrollFrames.action) (s : ScrollFrames.closure) :
  ScrollFrames.one_frame_at_most s ->
  ScrollFrames.one_frame_at_most (ScrollFrames.run actions s) /\
  (ScrollFrames.updates (ScrollFrames.run actions s) +
   ScrollFrames.requested (ScrollFrames.run actions s) <=
   ScrollFrames.updates s + ScrollFrames.requested s +
   ScrollFrames.count_scrolls actions)%nat.
Proof.
  revert s. induction actions as [| a l IH]; intros s H.
  - split; [exact H | cbn; lia].
  - change (ScrollFrames.run (a :: l) s)
      with (ScrollFrames.run l (ScrollFrames.act s a)).
    destruct (scroll_act_keeps s a H) as [H1 B1].
    destruct (IH _ H1) as [H2 B2]. split; [exact H2 |].
    unfold ScrollFrames.count_scrolls in *. destruct a; cbn in *; lia.
Qed.

Lemma scrolls_request_one (k : nat) (s : ScrollFrames.closure) :
  ScrollFrames.one_frame_at_most s ->
  ScrollFrames.requested
    (ScrollFrames.run (repeat ScrollFrames.Scroll (S k)) s) = 1%nat /\
  ScrollFrames.updates
    (ScrollFrames.run (repeat ScrollFrames.Scroll (S k)) s) =
  ScrollFrames.updates s.
Proof.
  revert s. induction k as [| k IH]; intros s H.
  - unfold ScrollFrames.one_frame_at_most in H. destruct s as [t r u].
    cbn [ScrollFrames.requested ScrollFrames.ticking] in H.
    destruct H as [[-> ->] | [-> ->]]; cbn; split; reflexivity.
  - change (ScrollFrames.run (repeat ScrollFrames.Scroll (S (S k))) s)
      with (ScrollFrames.run (repeat ScrollFrames.Scroll (S k))
                             (ScrollFrames.act s ScrollFrames.Scroll)).
    destruct (scroll_act_keeps s ScrollFrames.Scroll H) as [H1 _].
    destruct (IH _ H1) as [R U]. split; [exact R |]. rewrite U.
    unfold ScrollFrames.one_frame_at_most in H. destruct s as [t r u].
    cbn [ScrollFrames.requested ScrollFrames.ticking] in H.
    destruct H as [[-> ->] | [-> ->]]; reflexivity.
Qed.

(** X22.  The scroll listener never has more than one animation frame
    requested, and [ticking] is true exactly while one is.  Any burst of
    scroll events before the next frame leads to exactly one run of
    [updateScrollEffects] in that frame, after which nothing is requested;
    the updates never outnumber the scroll events. *)
Theorem one_frame_per_burst (history : list ScrollFrames.action) (k : nat) :
  let s := ScrollFrames.run history ScrollFrames.initial in
  let s' :=
    ScrollFrames.run
      (repeat ScrollFrames.Scroll (S k) ++ [ScrollFrames.Frame]) s in
  ScrollFrames.one_frame_at_most s /\
  (ScrollFrames.updates s + ScrollFrames.requested s <=
   ScrollFrames.count_scrolls history)%nat /\
  ScrollFrames.updates s' = S (ScrollFrames.updates s) /\
  ScrollFrames.requested s' = 0%nat /\
  ScrollFrames.ticking s' = false.
Proof.
  cbv zeta.
  assert (I0 : ScrollFrames.one_frame_at_most ScrollFrames.initial).
  { left. split; reflexivity. }
  destruct (scroll_run_keeps history _ I0) as [I B].
  split; [exact I |]. split; [cbn in B; lia |].
  destruct (scrolls_request_one k _ I) as [R U].
  assert (E : ScrollFrames.run
                (repeat ScrollFrames.Scroll (S k) ++ [ScrollFrames.Frame])
                (ScrollFrames.run history ScrollFrames.initial) =
              ScrollFrames.frame
                (ScrollFrames.run (repeat ScrollFrames.Scroll (S k))
                                  (ScrollFrames.run history ScrollFrames.initial))).
  { unfold ScrollFrames.run at 1. rewrite fold_left_app. reflexivity. }
  rewrite E. unfold ScrollFrames.frame. rewrite R.
  cbn [ScrollFrames.updates ScrollFrames.requested ScrollFrames.ticking].
  rewrite U. repeat split.
Qed.
